(** * ACE-AGI: the causal agent and the cognitive orchestrator

    A shallow embedding of

    - [src/python/agents/causal_agent.py] (class [CausalAgent]): the
      fact registry, the [networkx] directed graph built from commands,
      and the coherence score;
    - [src/src/orchestrator.py] (class [CognitiveOrchestrator]): the
      keyword classifier, the decomposition engine and the per-context
      counters;
    - [src/axiomhive_flask.py]: the handlers [grok_4d] and [facts] over
      the two objects, on the decoded body of the request.

    Conventions of the embedding.

    - A Python [str] is a Rocq [string] holding its UTF-8 bytes; a lone
      surrogate (U+D800 to U+DFFF), which a [str] can hold and UTF-8
      cannot, is held as the three bytes ED A0..BF 80..BF that its code
      point would take.  [command.encode()] gives the bytes back, and
      raises UnicodeEncodeError when a surrogate is among them.
      Iterating a [str] yields its characters, each with its one to four
      bytes.  [PyStr.lower] changes the ASCII letters only: every
      keyword the two classes search for is ASCII, has no letter k and
      does not end in the letter i, so the two code points outside ASCII
      whose lower case has an ASCII letter (U+212A and U+0130) cannot
      create or destroy a match, and the keyword tests agree with those
      of [str.lower] on every text; as a text, [PyStr.lower s] is
      [s.lower()] only when the letters of [s] outside ASCII have no
      other case.
    - A Python [dict] whose iteration order the code observes is a list
      of items; one that is only looked up is a [gmap].
    - A Python [float] is an IEEE 754 binary64 value, a [spec_float] of
      the standard library with precision 53 and maximal exponent 1024.
    - [datetime.now().isoformat()] is a function [now] from the read site
      within the call to the text of the timestamp.
    - Every operation threads the object's state explicitly and returns
      the new state with either a value or the exception raised. *)

From Stdlib Require Import ZArith List Ascii String Bool Lia SpecFloat.
From stdpp Require Import gmap strings list fin_maps.
Import ListNotations.

#[local] Set Warnings "-clear-no-such-hyp".
Local Open Scope Z_scope.

(* ===================================================================== *)
(** * Python strings *)
(* ===================================================================== *)

Module PyStr.

Definition code (c : ascii) : Z := Z.of_N (N_of_ascii c).

Definition chr (z : Z) : ascii := ascii_of_N (Z.to_N z).

(** [c.lower()] on one ASCII character: A..Z are moved to a..z. *)
Definition lower_char (c : ascii) : ascii :=
  if (65 <=? code c) && (code c <=? 90) then chr (code c + 32) else c.

(** [s.lower()] *)
Fixpoint lower (s : string) : string :=
  match s with
  | EmptyString => EmptyString
  | String c r => String (lower_char c) (lower r)
  end.

(** [s.startswith(p)] *)
Fixpoint startswith (p s : string) : bool :=
  match p, s with
  | EmptyString, _ => true
  | String _ _, EmptyString => false
  | String a p', String b s' => if Ascii.eqb a b then startswith p' s' else false
  end.

(** [word in s] for two strings: [word] occurs in [s] as a substring. *)
Fixpoint contains (word s : string) : bool :=
  startswith word s ||
  match s with
  | EmptyString => false
  | String _ r => contains word r
  end.

(** [any(word in s for word in words)] *)
Definition any_in (words : list string) (s : string) : bool :=
  existsb (fun w => contains w s) words.

(** The number of bytes of the character that the byte [c] begins. *)
Definition char_width (c : ascii) : nat :=
  if code c <? 192 then 1%nat
  else if code c <? 224 then 2%nat
  else if code c <? 240 then 3%nat
  else 4%nat.

(** The characters of [s] after the bytes [cur] of the current
    character, which has [pending] bytes to come. *)
Fixpoint split_chars (pending : nat) (cur : string) (s : string) : list string :=
  match s with
  | EmptyString => [cur]
  | String c r =>
      match pending with
      | O => cur :: split_chars (char_width c - 1) (String c EmptyString) r
      | S p => split_chars p (String.append cur (String c EmptyString)) r
      end
  end.

(** [list(s)]: the one-character strings of [s], as [for ch in s] yields. *)
Definition chars (s : string) : list string :=
  match s with
  | EmptyString => []
  | String c r => split_chars (char_width c - 1) (String c EmptyString) r
  end.

(** A lone surrogate is in [s]: the byte ED followed by one of A0..BF. *)
Fixpoint has_surrogate (s : string) : bool :=
  match s with
  | EmptyString => false
  | String c r =>
      ((code c =? 237) &&
       match r with
       | EmptyString => false
       | String c' _ => (160 <=? code c') && (code c' <=? 191)
       end)
      || has_surrogate r
  end.

(** [s.encode()]: the bytes of [s], or [None] for the UnicodeEncodeError
    that a surrogate raises. *)
Definition encode (s : string) : option string :=
  if has_surrogate s then None else Some s.

(** [s[:n]] for [n >= 0] *)
Fixpoint take (n : nat) (s : string) : string :=
  match n, s with
  | O, _ => EmptyString
  | S _, EmptyString => EmptyString
  | S n', String c r => String c (take n' r)
  end.

(** The bytes of the text, as numbers. *)
Fixpoint bytes (s : string) : list Z :=
  match s with
  | EmptyString => []
  | String c r => code c :: bytes r
  end.

End PyStr.

(* ===================================================================== *)
(** * [hashlib.sha256] (FIPS 180-4) *)
(* ===================================================================== *)

Module Sha256.

Definition wrap (x : Z) : Z := x mod 2 ^ 32.

Definition add32 (x y : Z) : Z := wrap (x + y).

Definition rotr (n x : Z) : Z :=
  wrap (Z.lor (Z.shiftr x n) (Z.shiftl x (32 - n))).

Definition not32 (x : Z) : Z := 2 ^ 32 - 1 - x.

Definition Ch (x y z : Z) : Z :=
  Z.lxor (Z.land x y) (Z.land (not32 x) z).

Definition Maj (x y z : Z) : Z :=
  Z.lxor (Z.lxor (Z.land x y) (Z.land x z)) (Z.land y z).

Definition bsig0 (x : Z) : Z :=
  Z.lxor (Z.lxor (rotr 2 x) (rotr 13 x)) (rotr 22 x).

Definition bsig1 (x : Z) : Z :=
  Z.lxor (Z.lxor (rotr 6 x) (rotr 11 x)) (rotr 25 x).

Definition ssig0 (x : Z) : Z :=
  Z.lxor (Z.lxor (rotr 7 x) (rotr 18 x)) (Z.shiftr x 3).

Definition ssig1 (x : Z) : Z :=
  Z.lxor (Z.lxor (rotr 17 x) (rotr 19 x)) (Z.shiftr x 10).

(** The constants of the standard are fractional bits of square and cube
    roots of the first primes; they are computed here rather than
    tabulated. *)
Definition is_prime (n : nat) : bool :=
  (2 <=? n)%nat &&
  forallb (fun d => negb (n mod d =? 0)%nat) (seq 2 (n - 2)).

Definition primes64 : list Z :=
  Eval vm_compute in map Z.of_nat (filter is_prime (seq 2 310)).

(** The largest [r < 2 ^ bits] with [r ^ 3 <= n], found bit by bit. *)
Fixpoint cube_root (bits : nat) (acc n : Z) : Z :=
  match bits with
  | O => acc
  | S b =>
      let c := acc + 2 ^ Z.of_nat b in
      if c * c * c <=? n then cube_root b c n else cube_root b acc n
  end.

(** First 32 bits of the fractional part of the cube root of [p]. *)
Definition frac_cbrt (p : Z) : Z := wrap (cube_root 40 0 (p * 2 ^ 96)).

(** First 32 bits of the fractional part of the square root of [p]. *)
Definition frac_sqrt (p : Z) : Z := wrap (Z.sqrt (p * 2 ^ 64)).

Definition K : list Z := Eval vm_compute in map frac_cbrt primes64.

Definition H0 : list Z :=
  Eval vm_compute in map frac_sqrt (firstn 8 primes64).

(** Padding: the bit 1, zero bits up to 448 modulo 512, and the length
    of the message in bits on 64 bits, big endian. *)
Definition be_bytes (n : nat) (x : Z) : list Z :=
  map (fun i => Z.shiftr x (8 * Z.of_nat (n - 1 - i)) mod 256) (seq 0 n).

Definition pad (msg : list Z) : list Z :=
  let l := Z.of_nat (length msg) in
  let k := (55 - l) mod 64 in
  msg ++ [128] ++ repeat 0 (Z.to_nat k) ++ be_bytes 8 (8 * l).

Fixpoint be_word (bs : list Z) : Z :=
  match bs with
  | [] => 0
  | b :: r => b * 256 ^ Z.of_nat (length r) + be_word r
  end.

(** The big-endian 32-bit words of a byte list whose length is a
    multiple of 4; [fuel] bounds the number of words. *)
Fixpoint words (fuel : nat) (bs : list Z) : list Z :=
  match fuel, bs with
  | S f, _ :: _ => be_word (firstn 4 bs) :: words f (skipn 4 bs)
  | _, _ => []
  end.

Definition nthz (l : list Z) (i : nat) : Z := nth i l 0.

(** The message schedule, most recent word first: [rev_w] holds
    W(t-1), W(t-2), ...; one step adds W(t). *)
Definition schedule_step (rev_w : list Z) : list Z :=
  add32 (add32 (ssig1 (nthz rev_w 1)) (nthz rev_w 6))
        (add32 (ssig0 (nthz rev_w 14)) (nthz rev_w 15)) :: rev_w.

Definition schedule (block : list Z) : list Z :=
  rev (Nat.iter 48 schedule_step (rev block)).

(** One round on the working variables [a .. h]. *)
Definition round (st : list Z) (kw : Z * Z) : list Z :=
  match st with
  | [a; b; c; d; e; f; g; h] =>
      let t1 := add32 (add32 (add32 h (bsig1 e)) (add32 (Ch e f g) (fst kw))) (snd kw) in
      let t2 := add32 (bsig0 a) (Maj a b c) in
      [add32 t1 t2; a; b; c; add32 d t1; e; f; g]
  | _ => st
  end.

Definition compress (h : list Z) (block : list Z) : list Z :=
  let out := fold_left round (combine K (schedule block)) h in
  map (fun p => add32 (fst p) (snd p)) (combine h out).

(** The blocks of 16 words. *)
Fixpoint blocks (fuel : nat) (ws : list Z) : list (list Z) :=
  match fuel, ws with
  | S f, _ :: _ => firstn 16 ws :: blocks f (skipn 16 ws)
  | _, _ => []
  end.

Definition digest_words (msg : list Z) : list Z :=
  let p := pad msg in
  let ws := words (length p) p in
  fold_left compress (blocks (length ws) ws) H0.

Definition hex_digit (d : Z) : ascii :=
  if d <? 10 then PyStr.chr (48 + d) else PyStr.chr (87 + d).

Definition hex_word (x : Z) : string :=
  fold_right (fun i s => String (hex_digit (Z.shiftr x (4 * Z.of_nat (7 - i)) mod 16)) s)
             EmptyString (seq 0 8).

(** [hashlib.sha256(data).hexdigest()] *)
Definition hexdigest (data : string) : string :=
  fold_right String.append EmptyString (map hex_word (digest_words (PyStr.bytes data))).

End Sha256.


(* ===================================================================== *)
(** * Python floats *)
(* ===================================================================== *)

Module PyFloat.

Definition prec : Z := 53.
Definition emax : Z := 1024.

(** An integer as a floating-point datum with exponent 0; the mantissa
    is exact and not yet rounded. *)
Definition exact (z : Z) : spec_float :=
  match z with
  | Z0 => S754_zero false
  | Zpos p => S754_finite false p 0
  | Zneg p => S754_finite true p 0
  end.

(** [float(z)]: the nearest binary64 value, ties to even.  (Python
    raises OverflowError where this gives an infinity, from 2 ^ 1024
    on.) *)
Definition of_int (z : Z) : spec_float := binary_normalize prec emax z 0 false.

(** [x / y] on two floats, [y] not zero. *)
Definition div (x y : spec_float) : spec_float := SFdiv prec emax x y.

(** [a / b] on two ints, [b] not zero: the quotient of the integers
    rounded once. *)
Definition int_truediv (a b : Z) : spec_float := SFdiv prec emax (exact a) (exact b).

(** [min(x, y)]: the first argument unless the second is smaller. *)
Definition py_min (x y : spec_float) : spec_float :=
  if SFltb y x then y else x.

(** [n / d] rounded to the nearest integer, ties to even; [d > 0]. *)
Definition div_half_even (n d : Z) : Z :=
  let q := n / d in
  let r := n mod d in
  if 2 * r <? d then q
  else if d <? 2 * r then q + 1
  else if Z.even q then q else q + 1.

(** [round(x, ndigits)] for [ndigits >= 0]: the exact value of [x] is
    rounded to [ndigits] decimals, ties to even, and the decimal is
    read back as the nearest float. *)
Definition py_round (x : spec_float) (ndigits : nat) : spec_float :=
  match x with
  | S754_finite s m e =>
      let scale := 10 ^ Z.of_nat ndigits in
      let r := if 0 <=? e then Zpos m * scale * 2 ^ e
               else div_half_even (Zpos m * scale) (2 ^ (- e)) in
      match r with
      | Zpos p => SFdiv prec emax (S754_finite s p 0) (exact scale)
      | _ => S754_zero s
      end
  | _ => x
  end.

Definition zero : spec_float := S754_zero false.
Definition one : spec_float := Eval vm_compute in of_int 1.
Definition ten : spec_float := Eval vm_compute in of_int 10.

End PyFloat.

(* ===================================================================== *)
(** * Python values, exceptions *)
(* ===================================================================== *)

(** The values a caller can pass where the code expects a command or a
    facts payload: what a JSON document decodes to.  The keys of a
    mapping are strings; its items are kept in insertion order. *)
#[warnings="-register-all"]
Inductive pyval : Type :=
| PNone
| PBool (b : bool)
| PInt (z : Z)
| PFloat (x : spec_float)
| PStr (s : string)
| PList (l : list pyval)
| PDict (items : list (string * pyval)).

(** The exceptions the two classes can raise. *)
Inductive exn : Type :=
| AttributeError
| TypeError
| KeyError (key : string)
| UnicodeEncodeError.

Inductive result (A : Type) : Type :=
| Ok (a : A)
| Raise (e : exn).

Arguments Ok {A} a.
Arguments Raise {A} e.

(** An attribute dictionary: keyword arguments, node data, a fact record. *)
Abbreviation attrs := (gmap string pyval).

(** [dict(items)]: a later item with the same key wins. *)
Definition dict_of_items (items : list (string * pyval)) : attrs :=
  fold_left (fun d kv => <[kv.1 := kv.2]> d) items ∅.

(** [d.get(k)] and [d[k] = v] on a dictionary kept in insertion order:
    an existing key keeps its place. *)
Fixpoint od_get {A : Type} (k : string) (d : list (string * A)) : option A :=
  match d with
  | [] => None
  | (k', v) :: r => if decide (k = k') then Some v else od_get k r
  end.

Fixpoint od_set {A : Type} (k : string) (v : A) (d : list (string * A)) : list (string * A) :=
  match d with
  | [] => [(k, v)]
  | (k', v') :: r => if decide (k = k') then (k, v) :: r else (k', v') :: od_set k v r
  end.

(* ===================================================================== *)
(** * [networkx.DiGraph] *)
(* ===================================================================== *)

Module Nx.

(** [node] is [G._node]: node id to node data.  [succ] is [G._succ]
    (which is [G._adj]): node id to the dictionary, in insertion order,
    from each successor to the data of the edge.  ([G._pred] mirrors
    [succ] and is read by none of the calls below.) *)
Record DiGraph : Type := {
  node : gmap string attrs;
  succ : gmap string (list (string * attrs))
}.

(** [nx.DiGraph()] *)
Definition empty : DiGraph := {| node := ∅; succ := ∅ |}.

(** [n in G] *)
Definition has_node (G : DiGraph) (n : string) : bool :=
  bool_decide (n ∈ dom (node G)).

(** [len(G.nodes)] *)
Definition number_of_nodes (G : DiGraph) : Z := Z.of_nat (size (node G)).

(** [len(G.edges)]: the sum of the out-degrees. *)
Definition number_of_edges (G : DiGraph) : Z :=
  Z.of_nat (map_fold (fun _ nbrs n => (length nbrs + n)%nat) 0%nat (succ G)).

(** The edges of [G] with their data, as [G.edges(data=True)] holds
    them, sources in the order of the keys rather than of insertion. *)
Definition edges (G : DiGraph) : list (string * string * attrs) :=
  '(u, nbrs) ← map_to_list (succ G); (fun vd => (u, vd.1, vd.2)) <$> nbrs.

(** [G.add_node(n, **attr)] once the call is bound: a new node starts
    from an empty data dictionary, and [attr] updates the data in both
    cases.  (The library keeps the keys of [node] and [succ] the same,
    [wf] below, so the data of a node that exists is always found.) *)
Definition add_node (G : DiGraph) (n : string) (attr : attrs) : DiGraph :=
  match succ G !! n with
  | None => {| node := <[n := attr]> (node G); succ := <[n := []]> (succ G) |}
  | Some _ => {| node := <[n := attr ∪ default ∅ (node G !! n)]> (node G);
                 succ := succ G |}
  end.

(** Binding the call [G.add_node(n, **kwargs)]: a keyword that names
    one of the two positional parameters of [add_node] is a TypeError
    ("got multiple values for argument"). *)
Definition call_add_node (G : DiGraph) (n : string) (kwargs : attrs) : result DiGraph :=
  if bool_decide ("self" ∈ dom kwargs) || bool_decide ("node_for_adding" ∈ dom kwargs)
  then Raise TypeError
  else Ok (add_node G n kwargs).

(** The first lines of [add_edge]: an end point that is not a node yet
    becomes one, with empty data. *)
Definition ensure_node (G : DiGraph) (n : string) : DiGraph :=
  match succ G !! n with
  | None => {| node := <[n := ∅]> (node G); succ := <[n := []]> (succ G) |}
  | Some _ => G
  end.

(** [G.add_edge(u, v, **attr)]: the data of an existing edge is
    updated, so there is one edge per ordered pair. *)
Definition add_edge (G : DiGraph) (u v : string) (attr : attrs) : DiGraph :=
  let G2 := ensure_node (ensure_node G u) v in
  let nbrs := default [] (succ G2 !! u) in
  let datadict := attr ∪ default ∅ (od_get v nbrs) in
  {| node := node G2; succ := <[u := od_set v datadict nbrs]> (succ G2) |}.

(** [G.adj[v]] for a node [v] *)
Definition adj (G : DiGraph) (v : string) : list (string * attrs) :=
  default [] (succ G !! v).

(** The breadth-first search of [single_source_shortest_path]: [paths]
    maps each node found to its path, in order of discovery. *)
Definition visit (v w : string)
    (acc : list (string * list string) * list string)
    : list (string * list string) * list string :=
  match od_get w acc.1 with
  | Some _ => acc
  | None => (acc.1 ++ [(w, default [] (od_get v acc.1) ++ [w])], acc.2 ++ [w])
  end.

Definition scan_level (G : DiGraph) (thislevel : list string)
    (paths : list (string * list string))
    : list (string * list string) * list string :=
  fold_left
    (fun acc v => fold_left (fun acc w => visit v w acc) (adj G v).*1 acc)
    thislevel (paths, []).

(** [while nextlevel and cutoff > level]: at most [cutoff] rounds. *)
Fixpoint levels (G : DiGraph) (cutoff : nat) (nextlevel : list string)
    (paths : list (string * list string)) : list (string * list string) :=
  match cutoff, nextlevel with
  | S c, _ :: _ =>
      let '(paths', next) := scan_level G nextlevel paths in
      levels G c next paths'
  | _, _ => paths
  end.

(** [nx.single_source_shortest_path(G, source, cutoff)] for a source
    that is a node of [G]. *)
Definition single_source_shortest_path (G : DiGraph) (source : string) (cutoff : Z)
    : list (string * list string) :=
  levels G (Z.to_nat cutoff) [source] [(source, [source])].

End Nx.

(* ===================================================================== *)
(** * [CausalAgent] (src/python/agents/causal_agent.py) *)
(* ===================================================================== *)

Module Causal.

(** The two mutable fields of the object.  ([coherence_threshold] is
    set once and never read.) *)
Record CausalAgent : Type := {
  graph : Nx.DiGraph;
  facts_db : gmap string attrs
}.

Definition fact_record (content timestamp type attribution : string) : attrs :=
  <["attribution" := PStr attribution]>
    (<["type" := PStr type]>
       (<["timestamp" := PStr timestamp]>
          (<["content" := PStr content]> ∅))).

Definition base_facts : list (string * attrs) :=
  [ ("mom_birthday",
     fact_record "Mom's birthday is 2025-05-27" "2025-09-20T00:00:00Z"
                 "temporal" "@AxiomHive");
    ("gym_move",
     fact_record "Planning gym membership and SF move" "2025-09-20T00:00:00Z"
                 "action" "@devdollzai");
    ("ecosystem_bind",
     fact_record "AxiomHive ecosystem binding active" "2025-09-20T00:00:00Z"
                 "system" "@AxiomHive @devdollzai") ].

(** The ids of the three seed facts. *)
Definition seed_ids : gset string :=
  {["mom_birthday"; "gym_move"; "ecosystem_bind"]}.

(** [initialize_base_facts]: each base fact goes to the registry and to
    the graph.  (Its four keywords are none of [add_node]'s parameters.) *)
Definition initialize_base_facts (a : CausalAgent) : CausalAgent :=
  fold_left
    (fun a kv => {| graph := Nx.add_node (graph a) kv.1 kv.2;
                    facts_db := <[kv.1 := kv.2]> (facts_db a) |})
    base_facts a.

(** [CausalAgent()] *)
Definition init : CausalAgent :=
  initialize_base_facts {| graph := Nx.empty; facts_db := ∅ |}.

Definition default_attribution : string := "@AxiomHive @devdollzai".

(** Line 56 after [command.encode()]:
    [hashlib.sha256(data).hexdigest()[:8]] on the bytes of the command. *)
Definition command_hash (data : string) : string :=
  PyStr.take 8 (Sha256.hexdigest data).

(** Lines 56 to 63 of [build_4d_graph]: the command is encoded, which
    raises before anything is written when it holds a surrogate, and
    becomes a node whose id is the hash of its bytes; the id is returned
    with the new state. *)
Definition add_command_node (a : CausalAgent) (now : nat -> string) (command : string)
    : CausalAgent * result string :=
  match PyStr.encode command with
  | None => (a, Raise UnicodeEncodeError)
  | Some data =>
      let h := command_hash data in
      ({| graph := Nx.add_node (graph a) h
                     (fact_record command (now 0%nat) "command" default_attribution);
          facts_db := facts_db a |}, Ok h)
  end.

Definition relation (label : string) : attrs := {["relation" := PStr label]}.

(** [_build_causal_relationships]: three independent keyword rules on
    the lower-cased command. *)
Definition _build_causal_relationships (G : Nx.DiGraph) (node_id command : string)
    : Nx.DiGraph :=
  let command_lower := PyStr.lower command in
  let G1 :=
    if PyStr.contains "birthday" command_lower || PyStr.contains "date" command_lower
    then Nx.add_edge G node_id "mom_birthday" (relation "temporal") else G in
  let G2 :=
    if PyStr.any_in ["move"; "plan"; "gym"; "sf"] command_lower
    then Nx.add_edge G1 node_id "gym_move" (relation "action") else G1 in
  if PyStr.any_in ["ecosystem"; "bind"; "nexus"; "4d"] command_lower
  then Nx.add_edge G2 node_id "ecosystem_bind" (relation "system") else G2.

(** [_calculate_coherence] *)
Definition _calculate_coherence (G : Nx.DiGraph) : spec_float :=
  if Nx.number_of_nodes G <? 2 then PyFloat.zero
  else
    let connectivity := PyFloat.int_truediv (Nx.number_of_edges G) (Nx.number_of_nodes G) in
    PyFloat.py_min connectivity PyFloat.one.

(** What [build_4d_graph] returns.  (The fourth entry, [graph_hash],
    is left out: it is a digest of the printed list of node ids, where
    [repr] writes a surrogate as an escape, so that its [encode] does not
    raise.) *)
Record BuildResult : Type := {
  coherence : spec_float;
  nodes : Z;
  edges : Z
}.

(** [build_4d_graph] *)
Definition build_4d_graph (a : CausalAgent) (now : nat -> string) (command : string)
    : CausalAgent * result BuildResult :=
  match add_command_node a now command with
  | (a1, Raise e) => (a1, Raise e)
  | (a1, Ok command_hash) =>
      let G := _build_causal_relationships (graph a1) command_hash command in
      ({| graph := G; facts_db := facts_db a1 |},
       Ok {| coherence := _calculate_coherence G;
             nodes := Nx.number_of_nodes G;
             edges := Nx.number_of_edges G |})
  end.

(** One turn of the loop of [integrate_facts], for the item
    [(fact_id, fact_content)] read at clock site [i]. *)
Definition integrate_one (a : CausalAgent) (now : nat -> string) (i : nat)
    (fact_id : string) (fact_content : pyval) : CausalAgent * result string :=
  let fact_content :=
    match fact_content with
    | PStr s => PDict [("content", PStr s)]
    | v => v
    end in
  match fact_content with
  | PDict items =>
      let d := dict_of_items items in
      let entry :=
        <["attribution" := default (PStr default_attribution) (d !! "attribution")]>
          (<["timestamp" := PStr (now i)]> d) in
      let db := <[fact_id := entry]> (facts_db a) in
      match Nx.call_add_node (graph a) fact_id entry with
      | Ok G => ({| graph := G; facts_db := db |}, Ok fact_id)
      | Raise e => ({| graph := graph a; facts_db := db |}, Raise e)
      end
  | _ => (a, Raise TypeError)   (* [**fact_content] on a value that is no mapping *)
  end.

Fixpoint integrate_loop (a : CausalAgent) (now : nat -> string) (i : nat)
    (items : list (string * pyval)) (processed_facts : list string)
    : CausalAgent * result (list string) :=
  match items with
  | [] => (a, Ok processed_facts)
  | (fact_id, fact_content) :: rest =>
      match integrate_one a now i fact_id fact_content with
      | (a', Ok id) => integrate_loop a' now (S i) rest (processed_facts ++ [id])
      | (a', Raise e) => (a', Raise e)
      end
  end.

(** [integrate_facts]: a payload without [items()] is an AttributeError
    before anything is written. *)
Definition integrate_facts (a : CausalAgent) (now : nat -> string) (facts_data : pyval)
    : CausalAgent * result (list string) :=
  match facts_data with
  | PDict items => integrate_loop a now 0%nat items []
  | _ => (a, Raise AttributeError)
  end.

Record GraphStats : Type := {
  stat_nodes : Z;
  stat_edges : Z;
  stat_coherence : spec_float
}.

Record FactsView : Type := {
  facts : gmap string attrs;
  graph_stats : GraphStats;
  timestamp : string
}.

(** [get_facts] *)
Definition get_facts (a : CausalAgent) (now : nat -> string) : CausalAgent * FactsView :=
  (a, {| facts := facts_db a;
         graph_stats := {| stat_nodes := Nx.number_of_nodes (graph a);
                           stat_edges := Nx.number_of_edges (graph a);
                           stat_coherence := _calculate_coherence (graph a) |};
         timestamp := now 0%nat |}).

(** One entry of a chain. *)
Record ChainEntry : Type := {
  entry_node : string;
  entry_data : attrs;
  entry_relations : list attrs
}.

(** The inner loop of [get_causal_chain], [for node in path]:
    [self.graph.nodes[node]] is a KeyError when [node] is no node. *)
Fixpoint chain_of (G : Nx.DiGraph) (path : list string) (chain : list ChainEntry)
    : result (list ChainEntry) :=
  match path with
  | [] => Ok chain
  | node :: rest =>
      match Nx.node G !! node with
      | None => Raise (KeyError node)
      | Some data =>
          chain_of G rest
            (chain ++ [{| entry_node := node;
                          entry_data := data;
                          entry_relations := (Nx.adj G node).*2 |}])
      end
  end.

(** The outer loop, [for path in nx.single_source_shortest_path(...)]:
    iterating the dictionary yields its keys, the ids of the nodes
    found, and [for node in path] then walks the characters of an id. *)
Fixpoint chains_of (G : Nx.DiGraph) (found : list string) (chains : list (list ChainEntry))
    : result (list (list ChainEntry)) :=
  match found with
  | [] => Ok chains
  | path :: rest =>
      match chain_of G (PyStr.chars path) [] with
      | Ok chain => chains_of G rest (chains ++ [chain])
      | Raise e => Raise e
      end
  end.

(** [get_causal_chain] *)
Definition get_causal_chain (a : CausalAgent) (start_node : string) (max_depth : Z)
    : CausalAgent * result (list (list ChainEntry)) :=
  if negb (Nx.has_node (graph a) start_node) then (a, Ok [])
  else
    (a, chains_of (graph a)
          (Nx.single_source_shortest_path (graph a) start_node max_depth).*1 []).

End Causal.

(* ===================================================================== *)
(** * [CognitiveOrchestrator] (src/src/orchestrator.py) *)
(* ===================================================================== *)

Module Orch.

(** A context: the dictionary that [process] creates with its first
    three keys and then completes with [last_command] and
    [last_processed]. *)
Record Context : Type := {
  created : string;
  commands_processed : Z;
  coherence_score : spec_float;
  last_command : option pyval;
  last_processed : option string
}.

(** The mutable field of the object.  ([decomposition_rules] is loaded
    once and never written; [coherence_threshold] is never read.) *)
Record CognitiveOrchestrator : Type := {
  contexts : gmap string Context
}.

(** [CognitiveOrchestrator()] *)
Definition init : CognitiveOrchestrator := {| contexts := ∅ |}.

(** [_load_decomposition_rules] *)
Definition decomposition_rules : gmap string (list string) :=
  list_to_map
    [ ("planning",
       [ "Break down into actionable steps";
         "Identify dependencies and resources";
         "Create timeline and milestones";
         "Define success criteria";
         "Map potential risks and mitigations" ]);
      ("analysis",
       [ "Gather relevant information";
         "Identify key factors and variables";
         "Analyze relationships and patterns";
         "Draw conclusions and insights";
         "Provide recommendations" ]);
      ("integration",
       [ "Map existing ecosystem components";
         "Identify integration points";
         "Define data flow and interfaces";
         "Plan migration strategy";
         "Test integration scenarios" ]);
      ("temporal",
       [ "Establish time-based relationships";
         "Create temporal sequences";
         "Map cause-effect chains";
         "Define temporal constraints";
         "Plan scheduling and timing" ]) ].

(** [_classify_command]: the first rule that matches wins. *)
Definition _classify_command (command : string) : string :=
  if PyStr.any_in ["plan"; "move"; "schedule"; "organize"] command then "planning"
  else if PyStr.any_in ["analyze"; "examine"; "study"; "review"] command then "analysis"
  else if PyStr.any_in ["integrate"; "combine"; "merge"; "connect"] command then "integration"
  else if PyStr.any_in ["when"; "time"; "date"; "schedule"] command then "temporal"
  else "generic".

(** [_add_temporal_dimension] *)
Definition _add_temporal_dimension (command : string) (base_items : list string)
    : list string :=
  let t0 := base_items in
  let t1 :=
    if PyStr.contains "birthday" command
    then t0 ++ ["Schedule around 2025-05-27"; "Plan celebration activities"] else t0 in
  let t2 :=
    if PyStr.any_in ["move"; "relocate"; "transfer"] command
    then t1 ++ ["Create moving timeline"; "Schedule packing and transportation"] else t1 in
  if PyStr.contains "gym" command
  then t2 ++ ["Research gym membership options"; "Schedule gym visits and routines"]
  else t2.

(** [_add_causal_dimension] *)
Definition _add_causal_dimension (command : string) (temporal_items : list string)
    : list string :=
  let c0 := temporal_items in
  let c1 :=
    if PyStr.contains "ecosystem" command || PyStr.contains "bind" command
    then c0 ++ [ "Map current ecosystem state";
                 "Identify binding requirements";
                 "Establish causal relationships";
                 "Test binding integrity" ]
    else c0 in
  if PyStr.contains "facts" command
  then c1 ++ [ "Verify fact accuracy";
               "Establish fact relationships";
               "Integrate with existing knowledge";
               "Update causal graph" ]
  else c1.

(** [_add_spatial_dimension] *)
Definition _add_spatial_dimension (command : string) (causal_items : list string)
    : list string :=
  let s0 := causal_items in
  let s1 :=
    if PyStr.contains "sf" command || PyStr.contains "san francisco" command
    then s0 ++ [ "Research SF neighborhoods";
                 "Map commute routes";
                 "Locate essential services";
                 "Plan area exploration" ]
    else s0 in
  if PyStr.contains "move" command
  then s1 ++ [ "Assess space requirements";
               "Plan furniture placement";
               "Map utility connections";
               "Design room layouts" ]
  else s1.

(** [_generic_decomposition]: five f-strings around the command as it
    was given. *)
Definition _generic_decomposition (command : string) : list string :=
  [ "Analyze: " +:+ command;
    "Break down requirements for: " +:+ command;
    "Identify resources needed for: " +:+ command;
    "Create action plan for: " +:+ command;
    "Define success metrics for: " +:+ command ].

(** [_decompose_4d] on a command that is a [str]. *)
Definition decompose_str (command : string) : list string :=
  let command_lower := PyStr.lower command in
  let command_type := _classify_command command_lower in
  match decomposition_rules !! command_type with
  | Some base_rules =>
      let temporal_items := _add_temporal_dimension command_lower base_rules in
      let causal_items := _add_causal_dimension command_lower temporal_items in
      _add_spatial_dimension command_lower causal_items
  | None => _generic_decomposition command
  end.

(** [_decompose_4d]: its first line is [command.lower()], an
    AttributeError on a value that is not a [str]. *)
Definition _decompose_4d (command : pyval) : result (list string) :=
  match command with
  | PStr s => Ok (decompose_str s)
  | _ => Raise AttributeError
  end.

(** [_calculate_context_coherence] *)
Definition _calculate_context_coherence (ctxs : gmap string Context)
    (context_id : string) (decomposed_items : list string) : spec_float :=
  match ctxs !! context_id with
  | None => PyFloat.zero
  | Some context =>
      let command_count := commands_processed context in
      let item_count := Z.of_nat (length decomposed_items) in
      let coherence :=
        PyFloat.py_min
          (PyFloat.div (PyFloat.of_int (command_count * item_count)) PyFloat.ten)
          PyFloat.one in
      PyFloat.py_round coherence 3
  end.

(** Lines 60 to 65 of [process]: the context is created on first use. *)
Definition ensure_context (ctxs : gmap string Context) (now : nat -> string)
    (context_id : string) : gmap string Context :=
  match ctxs !! context_id with
  | Some _ => ctxs
  | None =>
      <[context_id := {| created := now 0%nat;
                         commands_processed := 0;
                         coherence_score := PyFloat.zero;
                         last_command := None;
                         last_processed := None |}]> ctxs
  end.

(** Lines 68 to 70 of [process]. *)
Definition touch (now : nat -> string) (command : pyval) (c : Context) : Context :=
  {| created := created c;
     commands_processed := commands_processed c + 1;
     coherence_score := coherence_score c;
     last_command := Some command;
     last_processed := Some (now 1%nat) |}.

(** Line 77 of [process]. *)
Definition set_coherence (x : spec_float) (c : Context) : Context :=
  {| created := created c;
     commands_processed := commands_processed c;
     coherence_score := x;
     last_command := last_command c;
     last_processed := last_processed c |}.

(** [process]: the context is written before the command is looked at. *)
Definition process (o : CognitiveOrchestrator) (now : nat -> string)
    (command : pyval) (context_id : string)
    : CognitiveOrchestrator * result (list string) :=
  let ctxs1 := ensure_context (contexts o) now context_id in
  let ctxs2 := alter (touch now command) context_id ctxs1 in
  match _decompose_4d command with
  | Raise e => ({| contexts := ctxs2 |}, Raise e)
  | Ok decomposed =>
      let coherence := _calculate_context_coherence ctxs2 context_id decomposed in
      ({| contexts := alter (set_coherence coherence) context_id ctxs2 |}, Ok decomposed)
  end.

(** [get_context] *)
Definition get_context (o : CognitiveOrchestrator) (context_id : string)
    : CognitiveOrchestrator * option Context :=
  (o, contexts o !! context_id).

Record ContextList : Type := {
  listed : gmap string Context;
  total_contexts : Z;
  listed_at : string
}.

(** [list_contexts] *)
Definition list_contexts (o : CognitiveOrchestrator) (now : nat -> string)
    : CognitiveOrchestrator * ContextList :=
  (o, {| listed := contexts o;
         total_contexts := Z.of_nat (size (contexts o));
         listed_at := now 0%nat |}).

(** [clear_context] *)
Definition clear_context (o : CognitiveOrchestrator) (context_id : string)
    : CognitiveOrchestrator * bool :=
  match contexts o !! context_id with
  | Some _ => ({| contexts := delete context_id (contexts o) |}, true)
  | None => (o, false)
  end.

End Orch.

(* ===================================================================== *)
(** * Calls and reachable states of the causal agent *)
(* ===================================================================== *)

Definition is_ok {A : Type} (r : result A) : bool :=
  match r with Ok _ => true | Raise _ => false end.

(** The public calls of [CausalAgent]. *)
Inductive call : Type :=
| BuildGraph (command : string)
| IntegrateFacts (facts_data : pyval)
| GetFacts
| CausalChain (start_node : string) (max_depth : Z).

(** The state a call leaves behind, whether it returned or raised. *)
Definition run (a : Causal.CausalAgent) (now : nat -> string) (c : call)
    : Causal.CausalAgent :=
  match c with
  | BuildGraph command => (Causal.build_4d_graph a now command).1
  | IntegrateFacts facts_data => (Causal.integrate_facts a now facts_data).1
  | GetFacts => (Causal.get_facts a now).1
  | CausalChain start_node max_depth => (Causal.get_causal_chain a start_node max_depth).1
  end.

(** The states of an agent after its construction and any calls. *)
Inductive reachable : Causal.CausalAgent -> Prop :=
| reachable_init : reachable Causal.init
| reachable_run a now c : reachable a -> reachable (run a now c).

(** The states after the construction and calls of [build_4d_graph] and
    [integrate_facts] that returned; the index lists the commands built,
    latest first. *)
Inductive built : list string -> Causal.CausalAgent -> Prop :=
| built_init : built [] Causal.init
| built_build cs a now command a' r :
    built cs a ->
    Causal.build_4d_graph a now command = (a', Ok r) ->
    built (command :: cs) a'
| built_integrate cs a now facts_data a' ids :
    built cs a ->
    Causal.integrate_facts a now facts_data = (a', Ok ids) ->
    built cs a'.

(** The node and the successor dictionaries of a graph have the same
    keys: [networkx] keeps them so. *)
Definition wf (G : Nx.DiGraph) : Prop := dom (Nx.node G) = dom (Nx.succ G).

(** Every edge of [G] ends in [S]. *)
Definition targets_within (S : gset string) (G : Nx.DiGraph) : Prop :=
  forall u nbrs v d, Nx.succ G !! u = Some nbrs -> (v, d) ∈ nbrs -> v ∈ S.

(** The statement of the coherence score in the words of the
    specification, on the two sizes of the graph. *)
Definition coherence_spec (node_count edge_count : Z) : spec_float :=
  if 2 <=? node_count
  then PyFloat.py_min (PyFloat.int_truediv edge_count node_count) PyFloat.one
  else PyFloat.zero.

(** The characters of a lower-case hexadecimal numeral. *)
Definition is_hex_char (c : ascii) : bool :=
  let n := PyStr.code c in
  ((48 <=? n) && (n <=? 57)) || ((97 <=? n) && (n <=? 102)).

(** The keywords of [_classify_command]. *)
Definition classifier_keywords : list string :=
  [ "plan"; "move"; "schedule"; "organize";
    "analyze"; "examine"; "study"; "review";
    "integrate"; "combine"; "merge"; "connect";
    "when"; "time"; "date"; "schedule" ].

(** The results of [n] calls of [clear_context] in a row on one id. *)
Fixpoint clear_repeatedly (n : nat) (o : Orch.CognitiveOrchestrator) (context_id : string)
    : list bool :=
  match n with
  | O => []
  | S k =>
      let '(o', b) := Orch.clear_context o context_id in
      b :: clear_repeatedly k o' context_id
  end.

(** Sample inputs and states, used to run the calls on concrete data. *)
Definition clock : nat -> string := fun _ => "2025-09-21T10:00:00".

(** The text of one character, the lone surrogate U+D800, as the JSON
    string with the escape d800 decodes to. *)
Definition lone_surrogate : string :=
  String (PyStr.chr 237) (String (PyStr.chr 160) (String (PyStr.chr 128) EmptyString)).

Definition agent_after_hello : Causal.CausalAgent :=
  (Causal.build_4d_graph Causal.init clock "hello").1.

Definition agent_after_plan : Causal.CausalAgent :=
  run Causal.init clock (BuildGraph "plan SF move").

Definition orch_after_hello : Orch.CognitiveOrchestrator :=
  (Orch.process Orch.init clock (PStr "hello") "ctxA").1.

(* ===================================================================== *)
(** * The request handlers (src/axiomhive_flask.py) *)
(* ===================================================================== *)

Module App.

(** The two objects the module creates when it is loaded, [orch] and
    [causal]. *)
Record Nexus : Type := {
  orch : Orch.CognitiveOrchestrator;
  causal : Causal.CausalAgent
}.

(** Lines 9 and 10. *)
Definition init : Nexus := {| orch := Orch.init; causal := Causal.init |}.

(** The answers of [grok_4d]: the status code with the entries of the
    body that depend on the request.  (The constant entries are left
    out, and the text [str(e)] of an error is the exception itself.) *)
Inductive GrokResponse : Type :=
| Grok200 (output : list string) (coherence : spec_float)
| Grok400
| Grok500 (error : exn).

(** [bool(v)] *)
Definition truthy (v : pyval) : bool :=
  match v with
  | PNone => false
  | PBool b => b
  | PInt z => negb (z =? 0)
  | PFloat (S754_zero _) => false
  | PFloat _ => true
  | PStr s => negb (String.eqb s "")
  | PList l => match l with [] => false | _ => true end
  | PDict items => match items with [] => false | _ => true end
  end.

(** [grok_4d], from line 27 on, on [data], the decoded body of the
    request (on the form path a mapping of two strings): the guard on
    the command, the two calls and the [except Exception] around them.
    A body without [get] raises at line 28; a context id that cannot be
    hashed, a list or a mapping, raises in [process] at line 60, before
    anything is written.  The clock sites 0 and 1 are those of
    [process], the sites from 2 on those of [build_4d_graph].

    The contexts of [Orch] are keyed by strings.  A context id that is
    null, a truth value or a number is a key of the dictionary that they
    cannot hold: the answer to such a request is not modelled, which the
    result [None] marks. *)
Definition grok_4d (s : Nexus) (now : nat -> string) (data : pyval)
    : option (Nexus * GrokResponse) :=
  match data with
  | PDict items =>
      let d := dict_of_items items in
      match d !! "command" with
      | None => Some (s, Grok400)
      | Some cmd =>
          if negb (truthy cmd) then Some (s, Grok400)
          else
            match default (PStr "axiomhive_v20") (d !! "context_id") with
            | PStr context_id =>
                Some
                  match Orch.process (orch s) now cmd context_id with
                  | (o', Raise e) => ({| orch := o'; causal := causal s |}, Grok500 e)
                  | (o', Ok result) =>
                      match cmd with
                      | PStr text =>
                          match Causal.build_4d_graph (causal s)
                                  (fun k => now (2 + k)%nat) text with
                          | (a', Ok graph) =>
                              ({| orch := o'; causal := a' |},
                               Grok200 result (Causal.coherence graph))
                          | (a', Raise e) => ({| orch := o'; causal := a' |}, Grok500 e)
                          end
                      | _ =>
                          (* [command.encode()] in [build_4d_graph] *)
                          ({| orch := o'; causal := causal s |}, Grok500 AttributeError)
                      end
                  end
            | PList _ | PDict _ => Some (s, Grok500 TypeError)
            | _ => None
            end
      end
  | _ => Some (s, Grok500 AttributeError)
  end.

(** [facts] on a POST with the decoded body [facts_data]: the number of
    facts integrated, or the exception, which nothing catches here. *)
Definition facts_post (s : Nexus) (now : nat -> string) (facts_data : pyval)
    : Nexus * result Z :=
  match Causal.integrate_facts (causal s) now facts_data with
  | (a', Ok processed) =>
      ({| orch := orch s; causal := a' |}, Ok (Z.of_nat (length processed)))
  | (a', Raise e) => ({| orch := orch s; causal := a' |}, Raise e)
  end.

(** [facts] on a GET. *)
Definition facts_get (s : Nexus) (now : nat -> string) : Nexus * Causal.FactsView :=
  let '(a', view) := Causal.get_facts (causal s) now in
  ({| orch := orch s; causal := a' |}, view).

End App.

(* ===================================================================== *)
(** * Notions used to state what the calls do *)
(* ===================================================================== *)

(** The three rules of [_build_causal_relationships]: target and label. *)
Definition rule_targets : list (string * string) :=
  [ ("mom_birthday", "temporal"); ("gym_move", "action"); ("ecosystem_bind", "system") ]%string.

(** An id of 8 lower-case hexadecimal characters. *)
Definition is_hex_id (s : string) : bool :=
  (String.length s =? 8)%nat && forallb is_hex_char (list_ascii_of_string s).

(** There is an edge from [u] to [v]. *)
Definition has_edge (G : Nx.DiGraph) (u v : string) : Prop :=
  is_Some (od_get v (Nx.adj G u)).

(** The data of an edge is the label of the rule of its target. *)
Definition labelled (G : Nx.DiGraph) : Prop :=
  forall u v d, (v, d) ∈ Nx.adj G u ->
    exists lab, (v, lab) ∈ rule_targets /\ d = Causal.relation lab.

(** Only the hash of a command has successors. *)
Definition sourced (G : Nx.DiGraph) : Prop :=
  forall u, Nx.adj G u <> [] -> is_hex_id u = true.

(** The successors of a node are distinct. *)
Definition simple (G : Nx.DiGraph) : Prop := forall u, NoDup (Nx.adj G u).*1.

(** The edge from [u] to [v] is there with the label [lab] of the rule
    of [v], and both ends have their adjacency. *)
Definition linked (G : Nx.DiGraph) (u v lab : string) : Prop :=
  (v, lab) ∈ rule_targets /\
  u ∈ dom (Nx.succ G) /\ v ∈ dom (Nx.succ G) /\
  od_get v (Nx.adj G u) = Some (Causal.relation lab).

(** [G'] has the nodes and the edges of [G]. *)
Definition grows (G G' : Nx.DiGraph) : Prop :=
  dom (Nx.node G) ⊆ dom (Nx.node G') /\
  forall u v, has_edge G u v -> has_edge G' u v.

(** The values [integrate_facts] takes for a fact: a string, or a mapping
    that has neither of the two keywords [add_node] cannot take. *)
Definition acceptable (v : pyval) : bool :=
  match v with
  | PStr _ => true
  | PDict items =>
      negb (bool_decide ("self"%string ∈ items.*1)
            || bool_decide ("node_for_adding"%string ∈ items.*1))
  | _ => false
  end.

(** Lines 109 to 117: the record stored for a fact given as [v], read at
    the time [t]. *)
Definition stored_record (v : pyval) (t : string) : option attrs :=
  let fields :=
    match v with
    | PStr s => Some [("content"%string, PStr s)]
    | PDict items => Some items
    | _ => None
    end in
  (fun items =>
     <["attribution" := default (PStr Causal.default_attribution)
                                (dict_of_items items !! "attribution")]>
       (<["timestamp" := PStr t]> (dict_of_items items))) <$> fields.

(** A run of calls of [process] for one context id; the k-th call reads
    the clock [nows k]. *)
Fixpoint process_all (o : Orch.CognitiveOrchestrator) (nows : nat -> nat -> string)
    (k : nat) (commands : list pyval) (context_id : string) : Orch.CognitiveOrchestrator :=
  match commands with
  | [] => o
  | c :: rest => process_all (Orch.process o (nows k) c context_id).1 nows (S k) rest context_id
  end.

(* ===================================================================== *)
(** * The library models on known values *)
(* ===================================================================== *)

(** The digests of the FIPS 180-4 examples and of a message of two
    blocks. *)
Example sha256_empty :
  Sha256.hexdigest ""
  = "e3b0c44298fc1c149afbf4c8996fb92427ae41e4649b934ca495991b7852b855"%string.
Proof. vm_compute. reflexivity. Qed.

Example sha256_abc :
  Sha256.hexdigest "abc"
  = "ba7816bf8f01cfea414140de5dae2223b00361a396177a9cb410ff61f20015ad"%string.
Proof. vm_compute. reflexivity. Qed.

Example sha256_two_blocks :
  Sha256.hexdigest "aaaaaaaaaaaaaaaaaaaaaaaaaaaaaaaaaaaaaaaaaaaaaaaaaaaaaaaaaaaaaaaaaaaaaa"
  = "6bd5e5034855a11241f0dee8fc72850ffd9955b28347a86428b5fa19119f6ad0"%string.
Proof. vm_compute. reflexivity. Qed.

Example sha256_first_constants :
  firstn 2 Sha256.K = [1116352408; 1899447441] /\ firstn 1 Sha256.H0 = [1779033703].
Proof. split; reflexivity. Qed.

(** [1 / 3], [7 / 10.0], [round(2.675, 2)] (which is 2.67) and
    [round(0.0005, 3)] (which is 0.001), as the interpreter prints their
    mantissas and exponents. *)
Example float_third : PyFloat.int_truediv 1 3 = S754_finite false 6004799503160661 (-54).
Proof. vm_compute. reflexivity. Qed.

Example float_seven_tenths :
  PyFloat.div (PyFloat.of_int 7) PyFloat.ten = S754_finite false 6305039478318694 (-53).
Proof. vm_compute. reflexivity. Qed.

Example float_round_2675 :
  PyFloat.py_round (PyFloat.int_truediv 2675 1000) 2
  = S754_finite false 6012305502539612 (-51).
Proof. vm_compute. reflexivity. Qed.

Example float_round_half_thousandth :
  PyFloat.py_round (PyFloat.int_truediv 5 10000) 3
  = S754_finite false 4611686018427388 (-62).
Proof. vm_compute. reflexivity. Qed.

(** [build_4d_graph("hello")] on a fresh agent: 4 nodes, no edge,
    coherence 0.0. *)
Example build_hello :
  (Causal.build_4d_graph Causal.init clock "hello").2
  = Ok {| Causal.coherence := PyFloat.zero; Causal.nodes := 4; Causal.edges := 0 |}.
Proof. vm_compute. reflexivity. Qed.

(** [integrate_facts({"x": "hello"})] and then the registry at x. *)
Example integrate_x :
  (Causal.integrate_facts Causal.init clock (PDict [("x"%string, PStr "hello")])).2 = Ok ["x"%string] /\
  (Causal.facts_db (Causal.integrate_facts Causal.init clock (PDict [("x"%string, PStr "hello")])).1
     !! "x"%string) ≫= (fun d => d !! "content"%string)
  = Some (PStr "hello").
Proof. split; vm_compute; reflexivity. Qed.

(** A record with a keyword that [add_node] cannot take reaches the
    registry and not the graph. *)
Example integrate_reserved_keyword :
  let r := Causal.integrate_facts Causal.init clock
             (PDict [("y"%string, PDict [("self"%string, PInt 1)])]) in
  r.2 = Raise TypeError /\
  is_Some (Causal.facts_db r.1 !! "y"%string) /\
  Nx.node (Causal.graph r.1) !! "y"%string = None.
Proof. repeat split; vm_compute; eauto. Qed.

(** [process("plan SF move", "ctxA")] on a fresh orchestrator: planning,
    with the additions for move, sf and move again. *)
Example process_plan_sf_move :
  (Orch.process Orch.init clock (PStr "plan SF move") "ctxA").2
  = Ok [ "Break down into actionable steps"%string;
         "Identify dependencies and resources"%string;
         "Create timeline and milestones"%string;
         "Define success criteria"%string;
         "Map potential risks and mitigations"%string;
         "Create moving timeline"%string;
         "Schedule packing and transportation"%string;
         "Research SF neighborhoods"%string;
         "Map commute routes"%string;
         "Locate essential services"%string;
         "Plan area exploration"%string;
         "Assess space requirements"%string;
         "Plan furniture placement"%string;
         "Map utility connections"%string;
         "Design room layouts"%string ].
Proof. vm_compute. reflexivity. Qed.

(* ===================================================================== *)
(** * The digest: eight words, eight characters each *)
(* ===================================================================== *)

Section DigestFacts.

Lemma round_length st kw : length st = 8%nat -> length (Sha256.round st kw) = 8%nat.
Proof.
  intros H. do 9 (destruct st as [|? st]; try discriminate). reflexivity.
Qed.

Lemma rounds_length kws : forall st, length st = 8%nat -> length (fold_left Sha256.round kws st) = 8%nat.
Proof.
  induction kws as [|kw kws IH]; simpl; intros st H; [exact H|]. apply IH, round_length, H.
Qed.

Lemma compress_length h block : length h = 8%nat -> length (Sha256.compress h block) = 8%nat.
Proof.
  intros H. unfold Sha256.compress. rewrite length_map, length_combine, rounds_length, H; reflexivity || assumption.
Qed.

Lemma digest_words_length msg : length (Sha256.digest_words msg) = 8%nat.
Proof.
  unfold Sha256.digest_words. cbv zeta.
  generalize (Sha256.blocks (length (Sha256.words (length (Sha256.pad msg)) (Sha256.pad msg)))
           (Sha256.words (length (Sha256.pad msg)) (Sha256.pad msg))).
  assert (length Sha256.H0 = 8%nat) as H0 by reflexivity. revert H0.
  generalize Sha256.H0. intros h Hh l. revert h Hh.
  induction l as [|b l IH]; simpl; intros h Hh; [exact Hh|]. apply IH, compress_length, Hh.
Qed.

Lemma hex_digit_hex d : 0 <= d < 16 -> is_hex_char (Sha256.hex_digit d) = true.
Proof.
  intros H.
  assert (d = 0 \/ d = 1 \/ d = 2 \/ d = 3 \/ d = 4 \/ d = 5 \/ d = 6 \/ d = 7 \/
          d = 8 \/ d = 9 \/ d = 10 \/ d = 11 \/ d = 12 \/ d = 13 \/ d = 14 \/ d = 15) as Hd by lia.
  repeat (destruct Hd as [->|Hd]; [reflexivity|]). subst d. reflexivity.
Qed.

Lemma hex_string_chars (f : nat -> Z) (l : list nat) :
  (forall i, 0 <= f i < 16) ->
  String.length (fold_right (fun i s => String (Sha256.hex_digit (f i)) s) EmptyString l)
  = length l /\
  forallb is_hex_char
    (list_ascii_of_string
       (fold_right (fun i s => String (Sha256.hex_digit (f i)) s) EmptyString l)) = true.
Proof.
  intros Hf. induction l as [|i l [IH1 IH2]]; [split; reflexivity|].
  split.
  - change (S (String.length
        (fold_right (fun i s => String (Sha256.hex_digit (f i)) s) EmptyString l))
      = S (length l)). by rewrite IH1.
  - change (is_hex_char (Sha256.hex_digit (f i)) &&
      forallb is_hex_char
        (list_ascii_of_string
           (fold_right (fun i s => String (Sha256.hex_digit (f i)) s) EmptyString l)) = true).
    by rewrite IH2, hex_digit_hex.
Qed.

Lemma hex_word_chars x :
  String.length (Sha256.hex_word x) = 8%nat /\
  forallb is_hex_char (list_ascii_of_string (Sha256.hex_word x)) = true.
Proof.
  apply (hex_string_chars (fun i => Z.shiftr x (4 * Z.of_nat (7 - i)) mod 16) (seq 0 8)).
  intros i. apply Z.mod_pos_bound. lia.
Qed.

Lemma take_append s t : PyStr.take (String.length s) (String.append s t) = s.
Proof. induction s as [|c s IH]; simpl; [by destruct t | by rewrite IH]. Qed.

Lemma command_hash_hex command :
  exists w, Causal.command_hash command = Sha256.hex_word w.
Proof.
  unfold Causal.command_hash, Sha256.hexdigest.
  pose proof (digest_words_length (PyStr.bytes command)) as H.
  destruct (Sha256.digest_words (PyStr.bytes command)) as [|w ws]; [discriminate|].
  exists w. simpl map. simpl fold_right.
  replace 8%nat with (String.length (Sha256.hex_word w)) by apply hex_word_chars.
  apply take_append.
Qed.

End DigestFacts.

(* ===================================================================== *)
(** * The graph library: keys and edges *)
(* ===================================================================== *)

Section NxFacts.

Implicit Types (G : Nx.DiGraph) (n u v : string) (attr : attrs).

Lemma wf_empty : wf Nx.empty.
Proof. reflexivity. Qed.

Lemma add_node_dom G n attr :
  dom (Nx.node (Nx.add_node G n attr)) = {[n]} ∪ dom (Nx.node G).
Proof.
  unfold Nx.add_node. destruct (Nx.succ G !! n); simpl; apply dom_insert_L.
Qed.

Lemma add_node_wf G n attr : wf G -> wf (Nx.add_node G n attr).
Proof.
  unfold wf. intros H. rewrite add_node_dom.
  unfold Nx.add_node. destruct (Nx.succ G !! n) eqn:E; simpl.
  - apply elem_of_dom_2 in E. set_solver.
  - rewrite dom_insert_L. set_solver.
Qed.

Lemma ensure_node_dom G n :
  wf G -> dom (Nx.node (Nx.ensure_node G n)) = {[n]} ∪ dom (Nx.node G).
Proof.
  unfold wf, Nx.ensure_node. intros H. destruct (Nx.succ G !! n) eqn:E; simpl.
  - apply elem_of_dom_2 in E. set_solver.
  - apply dom_insert_L.
Qed.

Lemma ensure_node_wf G n : wf G -> wf (Nx.ensure_node G n).
Proof.
  unfold wf, Nx.ensure_node. intros H. destruct (Nx.succ G !! n) eqn:E; simpl.
  - exact H.
  - rewrite !dom_insert_L. set_solver.
Qed.

Lemma ensure_node_succ G n : n ∈ dom (Nx.succ (Nx.ensure_node G n)).
Proof.
  unfold Nx.ensure_node. destruct (Nx.succ G !! n) eqn:E; simpl.
  - by apply elem_of_dom_2 in E.
  - rewrite dom_insert_L. set_solver.
Qed.

Lemma ensure_node_succ_mono G n m :
  m ∈ dom (Nx.succ G) -> m ∈ dom (Nx.succ (Nx.ensure_node G n)).
Proof.
  unfold Nx.ensure_node. destruct (Nx.succ G !! n); simpl; [done|].
  rewrite dom_insert_L. set_solver.
Qed.

Lemma add_edge_dom G u v attr :
  wf G -> dom (Nx.node (Nx.add_edge G u v attr)) = {[u; v]} ∪ dom (Nx.node G).
Proof.
  intros H. unfold Nx.add_edge. simpl.
  rewrite ensure_node_dom by by apply ensure_node_wf.
  rewrite ensure_node_dom by done. set_solver.
Qed.

Lemma add_edge_wf G u v attr : wf G -> wf (Nx.add_edge G u v attr).
Proof.
  intros H. pose proof (ensure_node_wf _ v (ensure_node_wf _ u H)) as H2.
  unfold wf in *. unfold Nx.add_edge. simpl. rewrite dom_insert_L, H2.
  pose proof (ensure_node_succ_mono (Nx.ensure_node G u) v u (ensure_node_succ G u)).
  set_solver.
Qed.

Lemma elem_of_od_set {A : Type} (k k' : string) (x y : A) (d : list (string * A)) :
  (k', y) ∈ od_set k x d -> (k', y) = (k, x) \/ (k', y) ∈ d.
Proof.
  induction d as [|[k0 x0] d IH]; simpl.
  - intros H%list_elem_of_singleton. by left.
  - destruct (decide (k = k0)) as [->|Hne]; rewrite !elem_of_cons.
    + intros [H|H]; [by left | right; by right].
    + intros [H|H]; [right; by left |].
      destruct (IH H) as [?|?]; [by left | right; by right].
Qed.

Lemma targets_within_empty S : targets_within S Nx.empty.
Proof. intros u nbrs v d H. simpl in H. by rewrite lookup_empty in H. Qed.

Lemma targets_within_add_node S G n attr :
  targets_within S G -> targets_within S (Nx.add_node G n attr).
Proof.
  intros H u nbrs v d. unfold Nx.add_node.
  destruct (Nx.succ G !! n) eqn:E; simpl; [apply H|].
  destruct (decide (n = u)) as [->|Hne].
  - rewrite lookup_insert_eq. intros [= <-] Hin. by apply elem_of_nil in Hin.
  - rewrite lookup_insert_ne by done. apply H.
Qed.

Lemma targets_within_ensure_node S G n :
  targets_within S G -> targets_within S (Nx.ensure_node G n).
Proof.
  intros H u nbrs v d. unfold Nx.ensure_node.
  destruct (Nx.succ G !! n) eqn:E; simpl; [apply H|].
  destruct (decide (n = u)) as [->|Hne].
  - rewrite lookup_insert_eq. intros [= <-] Hin. by apply elem_of_nil in Hin.
  - rewrite lookup_insert_ne by done. apply H.
Qed.

Lemma targets_within_add_edge S G u v attr :
  v ∈ S -> targets_within S G -> targets_within S (Nx.add_edge G u v attr).
Proof.
  intros Hv H.
  pose proof (targets_within_ensure_node S _ v (targets_within_ensure_node S _ u H)) as H2.
  intros u' nbrs w d. unfold Nx.add_edge. simpl.
  destruct (decide (u = u')) as [<-|Hne].
  - rewrite lookup_insert_eq. intros [= <-] Hin.
    apply elem_of_od_set in Hin as [[= -> _]|Hin]; [done|].
    destruct (Nx.succ (Nx.ensure_node (Nx.ensure_node G u) v) !! u) eqn:E; simpl in Hin.
    + eapply H2; eauto.
    + by apply elem_of_nil in Hin.
  - rewrite lookup_insert_ne by done. apply H2.
Qed.

(** An edge listed by [G.edges] sits in the successor dictionary. *)
Lemma elem_of_edges G u v d :
  (u, v, d) ∈ Nx.edges G <->
  exists nbrs, Nx.succ G !! u = Some nbrs /\ (v, d) ∈ nbrs.
Proof.
  unfold Nx.edges. rewrite list_elem_of_bind. split.
  - intros [[u' nbrs] [Hin Hm]]. apply elem_of_map_to_list in Hm.
    apply list_elem_of_fmap in Hin as [[v' d'] [[= -> -> ->] Hin]]. eauto.
  - intros [nbrs [Hl Hin]]. exists (u, nbrs). split.
    + apply list_elem_of_fmap. exists (v, d). done.
    + by apply elem_of_map_to_list.
Qed.

End NxFacts.

(* ===================================================================== *)
(** * The causal agent: what each call does to the keys and the edges *)
(* ===================================================================== *)

Section CausalFacts.

Import Causal.

Implicit Types (a : CausalAgent) (G : Nx.DiGraph) (now : nat -> string).

Lemma seed_mom : "mom_birthday" ∈ seed_ids.
Proof. unfold seed_ids. set_solver. Qed.

Lemma seed_gym : "gym_move" ∈ seed_ids.
Proof. unfold seed_ids. set_solver. Qed.

Lemma seed_eco : "ecosystem_bind" ∈ seed_ids.
Proof. unfold seed_ids. set_solver. Qed.

Lemma init_wf : wf (graph init).
Proof.
  unfold init, initialize_base_facts, base_facts. simpl.
  repeat apply add_node_wf. apply wf_empty.
Qed.

Lemma init_nodes : dom (Nx.node (graph init)) = seed_ids.
Proof.
  unfold init, initialize_base_facts, base_facts, seed_ids. simpl.
  rewrite !add_node_dom. simpl. rewrite dom_empty_L. set_solver.
Qed.

Lemma init_facts : dom (facts_db init) = seed_ids.
Proof.
  unfold init, initialize_base_facts, base_facts, seed_ids. simpl.
  rewrite !dom_insert_L, dom_empty_L. set_solver.
Qed.

Lemma init_targets : targets_within seed_ids (graph init).
Proof.
  unfold init, initialize_base_facts, base_facts. simpl.
  repeat apply targets_within_add_node. apply targets_within_empty.
Qed.

(** Linking a command adds no node once the command and the seeds are
    nodes. *)
Lemma build_relationships_dom G node_id command :
  wf G -> node_id ∈ dom (Nx.node G) -> seed_ids ⊆ dom (Nx.node G) ->
  dom (Nx.node (_build_causal_relationships G node_id command)) = dom (Nx.node G).
Proof.
  intros Hwf Hn Hs.
  pose proof seed_mom. pose proof seed_gym. pose proof seed_eco.
  unfold _build_causal_relationships. cbv zeta.
  repeat match goal with |- context [if ?b then _ else _] => destruct b end;
    rewrite ?add_edge_dom by (repeat apply add_edge_wf; exact Hwf);
    set_solver.
Qed.

Lemma build_relationships_wf G node_id command :
  wf G -> wf (_build_causal_relationships G node_id command).
Proof.
  intros Hwf. unfold _build_causal_relationships. cbv zeta.
  repeat match goal with |- context [if ?b then _ else _] => destruct b end;
    repeat apply add_edge_wf; exact Hwf.
Qed.

Lemma build_relationships_targets G node_id command :
  targets_within seed_ids G ->
  targets_within seed_ids (_build_causal_relationships G node_id command).
Proof.
  intros HT. unfold _build_causal_relationships. cbv zeta.
  repeat match goal with |- context [if ?b then _ else _] => destruct b end;
    repeat (apply targets_within_add_edge;
            [first [apply seed_mom | apply seed_gym | apply seed_eco] |]);
    exact HT.
Qed.

(** [build_4d_graph] on a command that encodes, and on one that does
    not. *)
Lemma build_encodes a now command :
  PyStr.has_surrogate command = false ->
  build_4d_graph a now command
  = (let G := _build_causal_relationships
                (Nx.add_node (graph a) (command_hash command)
                   (fact_record command (now 0%nat) "command" default_attribution))
                (command_hash command) command in
     ({| graph := G; facts_db := facts_db a |},
      Ok {| coherence := _calculate_coherence G;
            nodes := Nx.number_of_nodes G;
            edges := Nx.number_of_edges G |})).
Proof.
  intros H. unfold build_4d_graph, add_command_node, PyStr.encode. by rewrite H.
Qed.

Lemma build_raises a now command :
  PyStr.has_surrogate command = true ->
  build_4d_graph a now command = (a, Raise UnicodeEncodeError).
Proof.
  intros H. unfold build_4d_graph, add_command_node, PyStr.encode. by rewrite H.
Qed.

Lemma build_returned a now command a' r :
  build_4d_graph a now command = (a', Ok r) ->
  PyStr.has_surrogate command = false /\ a' = (build_4d_graph a now command).1.
Proof.
  intros H. destruct (PyStr.has_surrogate command) eqn:E.
  - rewrite build_raises in H by done. discriminate.
  - by rewrite H.
Qed.

Lemma build_nodes a now command :
  PyStr.has_surrogate command = false ->
  wf (graph a) -> seed_ids ⊆ dom (Nx.node (graph a)) ->
  dom (Nx.node (graph (build_4d_graph a now command).1))
  = {[command_hash command]} ∪ dom (Nx.node (graph a)).
Proof.
  intros He Hwf Hs. rewrite build_encodes by done. simpl.
  rewrite build_relationships_dom.
  - apply add_node_dom.
  - by apply add_node_wf.
  - rewrite add_node_dom. set_solver.
  - rewrite add_node_dom. set_solver.
Qed.

Lemma build_wf a now command :
  wf (graph a) -> wf (graph (build_4d_graph a now command).1).
Proof.
  intros Hwf. destruct (PyStr.has_surrogate command) eqn:E.
  - by rewrite build_raises.
  - rewrite build_encodes by done. simpl.
    by apply build_relationships_wf, add_node_wf.
Qed.

Lemma build_facts a now command :
  facts_db (build_4d_graph a now command).1 = facts_db a.
Proof.
  destruct (PyStr.has_surrogate command) eqn:E.
  - by rewrite build_raises.
  - by rewrite build_encodes.
Qed.

Lemma build_targets a now command :
  targets_within seed_ids (graph a) ->
  targets_within seed_ids (graph (build_4d_graph a now command).1).
Proof.
  intros HT. destruct (PyStr.has_surrogate command) eqn:E.
  - by rewrite build_raises.
  - rewrite build_encodes by done. simpl.
    by apply build_relationships_targets, targets_within_add_node.
Qed.

(** One turn of the loop that returned wrote the id to both stores. *)
Lemma integrate_one_ok a now i fact_id fact_content a' id :
  integrate_one a now i fact_id fact_content = (a', Ok id) ->
  id = fact_id /\
  dom (facts_db a') = {[fact_id]} ∪ dom (facts_db a) /\
  dom (Nx.node (graph a')) = {[fact_id]} ∪ dom (Nx.node (graph a)) /\
  (wf (graph a) -> wf (graph a')).
Proof.
  unfold integrate_one, Nx.call_add_node.
  destruct fact_content; try discriminate;
    match goal with |- context [if ?b then _ else _] => destruct b end;
    try discriminate;
    intros [= <- <-]; simpl;
    (repeat split; [apply dom_insert_L | apply add_node_dom | apply add_node_wf]).
Qed.

(** A turn of the loop, returning or raising, leaves the graph as it
    was or adds one node to it. *)
Lemma integrate_one_graph a now i fact_id fact_content :
  graph (integrate_one a now i fact_id fact_content).1 = graph a \/
  exists attr,
    graph (integrate_one a now i fact_id fact_content).1
    = Nx.add_node (graph a) fact_id attr.
Proof.
  unfold integrate_one, Nx.call_add_node.
  destruct fact_content; simpl; try (by left);
    match goal with |- context [if ?b then _ else _] => destruct b end;
    simpl; eauto.
Qed.

Lemma integrate_loop_ok items : forall a now i acc a' ids,
  integrate_loop a now i items acc = (a', Ok ids) ->
  ids = acc ++ items.*1 /\
  dom (facts_db a') = list_to_set items.*1 ∪ dom (facts_db a) /\
  dom (Nx.node (graph a')) = list_to_set items.*1 ∪ dom (Nx.node (graph a)) /\
  (wf (graph a) -> wf (graph a')).
Proof.
  induction items as [|[k v] items IH]; simpl; intros a now i acc a' ids.
  - intros [= <- <-]. rewrite app_nil_r. repeat split; set_solver.
  - destruct (integrate_one a now i k v) as [a1 [id|e]] eqn:E; [|discriminate].
    apply integrate_one_ok in E as (-> & Hf & Hn & Hw).
    intros (-> & Hf' & Hn' & Hw')%IH.
    rewrite <- app_assoc. simpl. repeat split.
    + rewrite Hf', Hf. set_solver.
    + rewrite Hn', Hn. set_solver.
    + auto.
Qed.

Lemma integrate_loop_targets items : forall a now i acc,
  targets_within seed_ids (graph a) ->
  targets_within seed_ids (graph (integrate_loop a now i items acc).1).
Proof.
  induction items as [|[k v] items IH]; simpl; intros a now i acc HT; [done|].
  assert (targets_within seed_ids (graph (integrate_one a now i k v).1)) as H1.
  { destruct (integrate_one_graph a now i k v) as [->|[attr ->]];
      [done | by apply targets_within_add_node]. }
  destruct (integrate_one a now i k v) as [a1 [id|e]]; simpl in *; [by apply IH | done].
Qed.

Lemma integrate_targets a now facts_data :
  targets_within seed_ids (graph a) ->
  targets_within seed_ids (graph (integrate_facts a now facts_data).1).
Proof.
  intros HT. destruct facts_data; simpl; try done. by apply integrate_loop_targets.
Qed.

(** The breadth-first search lists the source first. *)
Lemma visit_head v w acc x :
  head acc.1.*1 = Some x -> head (Nx.visit v w acc).1.*1 = Some x.
Proof.
  unfold Nx.visit. destruct (od_get w acc.1); [done|]. simpl.
  destruct acc.1; [done|]. done.
Qed.

Lemma scan_level_head G level paths x :
  head paths.*1 = Some x -> head (Nx.scan_level G level paths).1.*1 = Some x.
Proof.
  unfold Nx.scan_level. intros H.
  assert (forall l acc, head acc.1.*1 = Some x ->
            head (fold_left
                    (fun acc v => fold_left (fun acc w => Nx.visit v w acc) (Nx.adj G v).*1 acc)
                    l acc).1.*1 = Some x) as Hout.
  { induction l as [|v l IH]; simpl; [done|]. intros acc Hacc. apply IH.
    generalize dependent acc. induction ((Nx.adj G v).*1) as [|w ws IHw]; simpl; [done|].
    intros acc Hacc. by apply IHw, visit_head. }
  by apply Hout.
Qed.

Lemma levels_head G cutoff : forall level paths x,
  head paths.*1 = Some x -> head (Nx.levels G cutoff level paths).*1 = Some x.
Proof.
  induction cutoff as [|c IH]; simpl; intros level paths x H; [done|].
  destruct level as [|v level]; [done|].
  pose proof (scan_level_head G (v :: level) paths x H) as Hs.
  destruct (Nx.scan_level G (v :: level) paths) as [paths' next]. by apply IH.
Qed.

Lemma shortest_path_head G source cutoff :
  exists rest, (Nx.single_source_shortest_path G source cutoff).*1 = source :: rest.
Proof.
  pose proof (levels_head G (Z.to_nat cutoff) [source] [(source, [source])] source eq_refl) as H.
  unfold Nx.single_source_shortest_path.
  destruct ((Nx.levels G (Z.to_nat cutoff) [source] [(source, [source])]).*1); [done|].
  injection H as ->. eauto.
Qed.

End CausalFacts.

(* ===================================================================== *)
(** * The causal agent: invariants of the reachable states *)
(* ===================================================================== *)

Section CausalInvariants.

Import Causal.

(** What holds of every state reached by calls that returned. *)
Lemma built_invariant cs a :
  built cs a ->
  wf (graph a) /\
  seed_ids ⊆ dom (facts_db a) /\
  dom (Nx.node (graph a)) = dom (facts_db a) ∪ list_to_set (command_hash <$> cs).
Proof.
  induction 1 as [|cs a now command a' r _ (Hwf & Hs & Hd) Hrun
                   |cs a now facts_data a' ids _ (Hwf & Hs & Hd) Hrun].
  - split; [apply init_wf|]. rewrite init_nodes, init_facts. set_solver.
  - apply build_returned in Hrun as [He ->].
    split; [by apply build_wf|]. rewrite build_facts. split; [done|].
    rewrite build_nodes by (done || set_solver). rewrite Hd. set_solver.
  - destruct facts_data; try discriminate. simpl in Hrun.
    apply integrate_loop_ok in Hrun as (_ & Hf & Hn & Hw).
    split; [auto|]. rewrite Hf, Hn, Hd. set_solver.
Qed.

Lemma reachable_targets a : reachable a -> targets_within seed_ids (graph a).
Proof.
  induction 1 as [|a now c _ IH]; [apply init_targets|].
  destruct c; simpl.
  - by apply build_targets.
  - by apply integrate_targets.
  - done.
  - unfold get_causal_chain. by destruct (negb _).
Qed.

End CausalInvariants.

(** C1, as amended: in every state reached from the construction by calls
    of [build_4d_graph] and [integrate_facts] that returned, the node ids
    of the graph are the keys of the fact registry together with the
    hashes of the commands built: every registry key is a node, and every
    other node is a command node. *)
Theorem C1_nodes_are_facts_and_commands (cs : list string) (a : Causal.CausalAgent)
    (H : built cs a) :
  dom (Nx.node (Causal.graph a))
  = dom (Causal.facts_db a) ∪ list_to_set (Causal.command_hash <$> cs).
Proof. by apply built_invariant in H as (_ & _ & ->). Qed.

Lemma C1_nodes_are_facts_and_commands_witness :
  built ["hello"%string] agent_after_hello /\
  dom (Nx.node (Causal.graph agent_after_hello))
  = dom (Causal.facts_db agent_after_hello)
    ∪ list_to_set (Causal.command_hash <$> ["hello"%string]).
Proof.
  assert (built ["hello"%string] agent_after_hello) as H.
  { eapply (built_build [] Causal.init clock "hello"); [apply built_init|].
    unfold agent_after_hello. by rewrite (build_encodes Causal.init clock "hello"). }
  split; [exact H|]. exact (C1_nodes_are_facts_and_commands _ _ H).
Defined.

(** C1, as stated, fails: after [build_4d_graph("hello")] on a fresh
    agent the node 2cf24dba is in the graph and not in the registry. *)
Lemma C1_counterexample :
  built ["hello"%string] agent_after_hello /\
  "2cf24dba" ∈ dom (Nx.node (Causal.graph agent_after_hello)) /\
  ("2cf24dba" ∉ dom (Causal.facts_db agent_after_hello)) /\
  (dom (Nx.node (Causal.graph agent_after_hello)) ≠ dom (Causal.facts_db agent_after_hello)).
Proof.
  assert ("2cf24dba" ∈ dom (Nx.node (Causal.graph agent_after_hello))) as Hin.
  { apply elem_of_dom. vm_compute. eauto. }
  assert ("2cf24dba" ∉ dom (Causal.facts_db agent_after_hello)) as Hout.
  { apply not_elem_of_dom. vm_compute. reflexivity. }
  split.
  { eapply (built_build [] Causal.init clock "hello"); [apply built_init|].
    unfold agent_after_hello. by rewrite (build_encodes Causal.init clock "hello"). }
  split; [exact Hin|]. split; [exact Hout|].
  intros Heq. apply Hout. by rewrite <- Heq.
Qed.

(** C10: in every state the agent reaches, by any calls of
    [build_4d_graph], [integrate_facts], [get_facts] and
    [get_causal_chain], returning or raising, every edge of the graph
    ends in one of mom_birthday, gym_move and ecosystem_bind. *)
Theorem C10_edges_end_in_seed_facts (a : Causal.CausalAgent) (H : reachable a)
    (u v : string) (d : attrs) :
  (u, v, d) ∈ Nx.edges (Causal.graph a) ->
  v ∈ Causal.seed_ids /\
  (v = "mom_birthday" \/ v = "gym_move" \/ v = "ecosystem_bind")%string.
Proof.
  intros (nbrs & Hl & Hin)%elem_of_edges.
  pose proof (reachable_targets a H u nbrs v d Hl Hin) as Hv.
  split; [exact Hv|]. unfold Causal.seed_ids in Hv. set_solver.
Qed.

Lemma C10_edges_end_in_seed_facts_witness :
  reachable agent_after_plan /\
  ("f087cb3b"%string, "gym_move"%string, Causal.relation "action")
    ∈ Nx.edges (Causal.graph agent_after_plan) /\
  "gym_move" ∈ Causal.seed_ids.
Proof.
  assert (reachable agent_after_plan) as Hr by apply reachable_run, reachable_init.
  assert (("f087cb3b"%string, "gym_move"%string, Causal.relation "action")
          ∈ Nx.edges (Causal.graph agent_after_plan)) as He.
  { apply elem_of_edges. exists [("gym_move"%string, Causal.relation "action")].
    split; [vm_compute; reflexivity | apply list_elem_of_singleton; reflexivity]. }
  split; [exact Hr|]. split; [exact He|].
  exact (proj1 (C10_edges_end_in_seed_facts _ Hr _ _ _ He)).
Defined.

(** The first character of a text that begins with an ASCII byte is
    that byte. *)
Lemma chars_ascii_head (c : ascii) (rest : string) :
  PyStr.code c < 128 ->
  exists tl, PyStr.chars (String c rest) = String c EmptyString :: tl.
Proof.
  intros Hc. unfold PyStr.chars, PyStr.char_width.
  destruct (Z.ltb_spec (PyStr.code c) 192); [|lia]. simpl.
  destruct rest; simpl; eauto.
Qed.

(** C3, where the code departs from it: when the start node is in the
    graph and the first character of its id, an ASCII character, is not
    itself the id of a node, [get_causal_chain] raises KeyError on that
    character, whatever the depth.  (The loop walks the keys of the
    dictionary of paths, so [path] is a node id and [node] one of its
    characters.) *)
Theorem C3_causal_chain_raises_on_present_start (a : Causal.CausalAgent)
    (c : ascii) (rest : string) (max_depth : Z)
    (Hascii : PyStr.code c < 128)
    (Hin : Nx.has_node (Causal.graph a) (String c rest) = true)
    (Hch : Nx.node (Causal.graph a) !! String c EmptyString = None) :
  Causal.get_causal_chain a (String c rest) max_depth
  = (a, Raise (KeyError (String c EmptyString))).
Proof.
  unfold Causal.get_causal_chain. rewrite Hin. simpl negb. cbv iota.
  destruct (shortest_path_head (Causal.graph a) (String c rest) max_depth) as [found ->].
  destruct (chars_ascii_head c rest Hascii) as [tl Htl].
  unfold Causal.chains_of. rewrite Htl. simpl. by rewrite Hch.
Qed.

Lemma C3_causal_chain_raises_on_present_start_witness :
  PyStr.code "g" < 128 /\
  Nx.has_node (Causal.graph Causal.init) "gym_move" = true /\
  Nx.node (Causal.graph Causal.init) !! "g"%string = None /\
  Causal.get_causal_chain Causal.init "gym_move" 3 = (Causal.init, Raise (KeyError "g")).
Proof.
  assert (PyStr.code "g" < 128) as H0 by (vm_compute; reflexivity).
  assert (Nx.has_node (Causal.graph Causal.init) "gym_move" = true) as H1
    by (vm_compute; reflexivity).
  assert (Nx.node (Causal.graph Causal.init) !! "g"%string = None) as H2
    by (vm_compute; reflexivity).
  split; [exact H0|]. split; [exact H1|]. split; [exact H2|].
  exact (C3_causal_chain_raises_on_present_start Causal.init "g" "ym_move" 3 H0 H1 H2).
Defined.

(** The other half of C3 holds: an unknown start node gives the empty
    list, in every state, and nothing is raised. *)
Lemma causal_chain_absent_start (a : Causal.CausalAgent) (start_node : string) (max_depth : Z) :
  Nx.has_node (Causal.graph a) start_node = false ->
  Causal.get_causal_chain a start_node max_depth = (a, Ok []).
Proof. intros H. unfold Causal.get_causal_chain. by rewrite H. Qed.

(** C5: the coherence of a graph is [min(edge_count / node_count, 1.0)]
    when it has at least 2 nodes and [0.0] when it has 0 or 1: the code's
    [_calculate_coherence] and the specification's formula agree on every
    graph. *)
Theorem C5_coherence_formula (G : Nx.DiGraph) :
  Causal._calculate_coherence G
  = coherence_spec (Nx.number_of_nodes G) (Nx.number_of_edges G).
Proof.
  unfold Causal._calculate_coherence, coherence_spec.
  destruct (Z.ltb_spec (Nx.number_of_nodes G) 2), (Z.leb_spec 2 (Nx.number_of_nodes G));
    (reflexivity || lia).
Qed.

(** C7: on a fresh agent, [build_4d_graph("plan SF move")] adds one edge,
    from the command node f087cb3b to gym_move with the relation action,
    and returns the coherence 1/4 = 0.25 (4 nodes, 1 edge). *)
Theorem C7_plan_sf_move (now : nat -> string) :
  Nx.edges (Causal.graph Causal.init) = [] /\
  Causal.command_hash "plan SF move" = "f087cb3b"%string /\
  Nx.edges (Causal.graph (Causal.build_4d_graph Causal.init now "plan SF move").1)
  = [("f087cb3b"%string, "gym_move"%string, Causal.relation "action")] /\
  (Causal.build_4d_graph Causal.init now "plan SF move").2
  = Ok {| Causal.coherence := PyFloat.int_truediv 1 4;
          Causal.nodes := 4; Causal.edges := 1 |} /\
  PyFloat.int_truediv 1 4 = S754_finite false (2 ^ 52) (-54).
Proof. repeat split; vm_compute; reflexivity. Qed.

(** C8, as amended: for a command that encodes as UTF-8, adding its node
    twice gives the same id both times, the first 8 hexadecimal
    characters of the SHA-256 digest of its bytes, and the second call
    leaves the number of nodes as the first call left it, in every state
    of the store; a command with a lone surrogate raises
    UnicodeEncodeError both times and the store is as it was. *)
Theorem C8_add_command_node_idempotent (a : Causal.CausalAgent)
    (now1 now2 : nat -> string) (command : string) :
  let first := Causal.add_command_node a now1 command in
  let second := Causal.add_command_node first.1 now2 command in
  if PyStr.has_surrogate command
  then first = (a, Raise UnicodeEncodeError) /\ second = (a, Raise UnicodeEncodeError)
  else
    exists node_id,
      first.2 = Ok node_id /\
      node_id = PyStr.take 8 (Sha256.hexdigest command) /\
      String.length node_id = 8%nat /\
      forallb is_hex_char (list_ascii_of_string node_id) = true /\
      second.2 = Ok node_id /\
      Nx.number_of_nodes (Causal.graph second.1)
      = Nx.number_of_nodes (Causal.graph first.1).
Proof.
  cbv zeta. unfold Causal.add_command_node, PyStr.encode.
  destruct (PyStr.has_surrogate command) eqn:E; simpl; rewrite ?E; [done|].
  exists (Causal.command_hash command). simpl.
  split; [reflexivity|]. split; [reflexivity|].
  destruct (command_hash_hex command) as [w Hw].
  split; [rewrite Hw; apply hex_word_chars|].
  split; [rewrite Hw; apply hex_word_chars|].
  split; [reflexivity|]. clear w Hw.
  unfold Nx.number_of_nodes. f_equal.
  set (h := Causal.command_hash command).
  assert (forall G attr, is_Some (Nx.succ (Nx.add_node G h attr) !! h) /\
                         is_Some (Nx.node (Nx.add_node G h attr) !! h)) as Hadd.
  { intros G attr. unfold Nx.add_node. destruct (Nx.succ G !! h) eqn:E'; simpl.
    - rewrite E', lookup_insert_eq. eauto.
    - rewrite !lookup_insert_eq. eauto. }
  match goal with |- context [Nx.add_node (Nx.add_node ?G h ?x) h ?y] =>
    destruct (Hadd G x) as [[nbrs Hs] [data Hn]];
    unfold Nx.add_node at 1; rewrite Hs; simpl
  end.
  apply map_size_insert_Some. eauto.
Qed.

(** C8, as stated, fails: the command of one character U+D800 is a text
    and gets no node id; line 56 raises UnicodeEncodeError. *)
Lemma C8_counterexample :
  Causal.add_command_node Causal.init clock lone_surrogate
  = (Causal.init, Raise UnicodeEncodeError) /\
  forall node_id, (Causal.add_command_node Causal.init clock lone_surrogate).2 <> Ok node_id.
Proof.
  assert (Causal.add_command_node Causal.init clock lone_surrogate
          = (Causal.init, Raise UnicodeEncodeError)) as H by reflexivity.
  split; [exact H|]. intros node_id. by rewrite H.
Qed.

(* ===================================================================== *)
(** * The orchestrator *)
(* ===================================================================== *)

Section OrchFacts.

Import Orch.

Lemma rules_generic : decomposition_rules !! "generic" = None.
Proof. vm_compute. reflexivity. Qed.

(** Every list in the rule table has five items. *)
Lemma rules_length ty l : decomposition_rules !! ty = Some l -> length l = 5%nat.
Proof.
  unfold decomposition_rules. intros H.
  apply elem_of_list_to_map_2 in H.
  repeat (apply elem_of_cons in H as [[= -> ->]|H]; [reflexivity|]).
  by apply elem_of_nil in H.
Qed.

Lemma temporal_grows command l :
  (length l <= length (_add_temporal_dimension command l))%nat.
Proof.
  unfold _add_temporal_dimension. cbv zeta.
  repeat match goal with |- context [if ?b then _ else _] => destruct b end;
    rewrite ?length_app; simpl; lia.
Qed.

Lemma causal_grows command l :
  (length l <= length (_add_causal_dimension command l))%nat.
Proof.
  unfold _add_causal_dimension. cbv zeta.
  repeat match goal with |- context [if ?b then _ else _] => destruct b end;
    rewrite ?length_app; simpl; lia.
Qed.

Lemma spatial_grows command l :
  (length l <= length (_add_spatial_dimension command l))%nat.
Proof.
  unfold _add_spatial_dimension. cbv zeta.
  repeat match goal with |- context [if ?b then _ else _] => destruct b end;
    rewrite ?length_app; simpl; lia.
Qed.

(** A decomposition has at least five items. *)
Lemma decompose_length command : (5 <= length (decompose_str command))%nat.
Proof.
  unfold decompose_str. cbv zeta.
  destruct (decomposition_rules !! _) as [base|] eqn:E; [|simpl; lia].
  apply rules_length in E.
  etransitivity; [|apply spatial_grows].
  etransitivity; [|apply causal_grows].
  etransitivity; [|apply temporal_grows]. lia.
Qed.

(** A text with none of the sixteen keywords is classified generic. *)
Lemma classify_generic text :
  PyStr.any_in classifier_keywords text = false ->
  _classify_command text = "generic"%string.
Proof.
  unfold classifier_keywords, PyStr.any_in. simpl existsb. intros H.
  repeat (apply orb_false_elim in H as [? H]).
  unfold _classify_command, PyStr.any_in. simpl existsb.
  repeat match goal with Hk : PyStr.contains _ text = false |- _ =>
    rewrite Hk; clear Hk end.
  reflexivity.
Qed.

Lemma ensure_context_lookup m now context_id :
  ensure_context m now context_id !! context_id
  = Some (default {| created := now 0%nat; commands_processed := 0;
                     coherence_score := PyFloat.zero;
                     last_command := None; last_processed := None |}
                  (m !! context_id)).
Proof.
  unfold ensure_context. destruct (m !! context_id) eqn:E; simpl; [done|].
  apply lookup_insert_eq.
Qed.

Lemma ensure_context_other m now context_id other :
  other <> context_id ->
  ensure_context m now context_id !! other = m !! other.
Proof.
  intros Hne. unfold ensure_context. destruct (m !! context_id); [done|].
  by rewrite lookup_insert_ne.
Qed.

(** After any call of [process], returning or raising, the context
    exists. *)
Lemma process_activates o now command context_id :
  is_Some (contexts (process o now command context_id).1 !! context_id).
Proof.
  unfold process. cbv zeta.
  destruct (_decompose_4d command); simpl;
    rewrite ?lookup_alter_eq, ensure_context_lookup; simpl; eauto.
Qed.

End OrchFacts.

(** C2, as amended: a facts payload that is no mapping makes
    [integrate_facts] raise with the registry and the graph as they were;
    a command that is no string makes [process] raise too, after the
    context has been created if it was missing, its count of commands
    incremented and the command stored in it.  The coherence score of
    that context and every other context are as before. *)
Theorem C2_rejection_of_ill_typed_input
    (o : Orch.CognitiveOrchestrator) (a : Causal.CausalAgent) (now : nat -> string)
    (command facts_data : pyval) (context_id : string)
    (Hcommand : forall s, command <> PStr s)
    (Hfacts : forall items, facts_data <> PDict items) :
  Causal.integrate_facts a now facts_data = (a, Raise AttributeError) /\
  exists o' before,
    Orch.process o now command context_id = (o', Raise AttributeError) /\
    Orch.ensure_context (Orch.contexts o) now context_id !! context_id = Some before /\
    Orch.contexts o' !! context_id
    = Some {| Orch.created := Orch.created before;
              Orch.commands_processed := Orch.commands_processed before + 1;
              Orch.coherence_score := Orch.coherence_score before;
              Orch.last_command := Some command;
              Orch.last_processed := Some (now 1%nat) |} /\
    forall other, other <> context_id ->
      Orch.contexts o' !! other = Orch.contexts o !! other.
Proof.
  split.
  - destruct facts_data; try reflexivity. by destruct (Hfacts items).
  - unfold Orch.process. cbv zeta.
    assert (Orch._decompose_4d command = Raise AttributeError) as ->.
    { destruct command; try reflexivity. by destruct (Hcommand s). }
    eexists _, _. split; [reflexivity|]. simpl.
    split; [apply ensure_context_lookup|]. split.
    + by rewrite lookup_alter_eq, ensure_context_lookup.
    + intros other Hne. rewrite lookup_alter_ne by done.
      by apply ensure_context_other.
Qed.

Lemma C2_rejection_of_ill_typed_input_witness :
  (forall s, PInt 5 <> PStr s) /\
  (forall items, PList [] <> PDict items) /\
  Causal.integrate_facts Causal.init clock (PList []) = (Causal.init, Raise AttributeError) /\
  exists o', Orch.process Orch.init clock (PInt 5) "ctxA" = (o', Raise AttributeError).
Proof.
  assert (forall s, PInt 5 <> PStr s) as H1 by (intros s; discriminate).
  assert (forall items, PList [] <> PDict items) as H2 by (intros items; discriminate).
  split; [exact H1|]. split; [exact H2|].
  destruct (C2_rejection_of_ill_typed_input Orch.init Causal.init clock
              (PInt 5) (PList []) "ctxA" H1 H2) as [Hi (o' & before & Hp & _)].
  split; [exact Hi|]. exists o'. exact Hp.
Defined.

(** C2, as stated, fails: [process(5, "ctxA")] on a fresh orchestrator
    raises and leaves a context ctxA with one command processed. *)
Lemma C2_counterexample :
  (Orch.process Orch.init clock (PInt 5) "ctxA").2 = Raise AttributeError /\
  Orch.contexts Orch.init !! "ctxA"%string = None /\
  Orch.contexts (Orch.process Orch.init clock (PInt 5) "ctxA").1 !! "ctxA"%string
  = Some {| Orch.created := clock 0%nat;
            Orch.commands_processed := 1;
            Orch.coherence_score := PyFloat.zero;
            Orch.last_command := Some (PInt 5);
            Orch.last_processed := Some (clock 1%nat) |} /\
  (Orch.process Orch.init clock (PInt 5) "ctxA").1 <> Orch.init.
Proof.
  assert (Orch.contexts (Orch.process Orch.init clock (PInt 5) "ctxA").1 !! "ctxA"%string
          = Some {| Orch.created := clock 0%nat;
                    Orch.commands_processed := 1;
                    Orch.coherence_score := PyFloat.zero;
                    Orch.last_command := Some (PInt 5);
                    Orch.last_processed := Some (clock 1%nat) |}) as H
    by (vm_compute; reflexivity).
  split; [reflexivity|]. split; [reflexivity|]. split; [exact H|].
  intros Heq. rewrite Heq in H. discriminate H.
Qed.

(** C4: for every string command, the empty one too, and every context
    id, [process] returns a list of at least five strings; a command
    with none of the classifier's keywords is generic and gives the five
    templates, each ending in the command as it was typed. *)
Theorem C4_process_never_fails_on_strings
    (o : Orch.CognitiveOrchestrator) (now : nat -> string) (command context_id : string) :
  exists o' items,
    Orch.process o now (PStr command) context_id = (o', Ok items) /\
    items <> [] /\
    (5 <= length items)%nat /\
    Orch._classify_command (PyStr.lower "") = "generic"%string /\
    (PyStr.any_in classifier_keywords (PyStr.lower command) = false ->
     Orch._classify_command (PyStr.lower command) = "generic"%string /\
     items = [ "Analyze: " +:+ command;
               "Break down requirements for: " +:+ command;
               "Identify resources needed for: " +:+ command;
               "Create action plan for: " +:+ command;
               "Define success metrics for: " +:+ command ]).
Proof.
  eexists _, (Orch.decompose_str command). split; [reflexivity|].
  pose proof (decompose_length command) as Hlen.
  split; [by destruct (Orch.decompose_str command); [simpl in Hlen; lia|]|].
  split; [exact Hlen|]. split; [reflexivity|].
  intros Hk%classify_generic. split; [exact Hk|].
  unfold Orch.decompose_str. cbv zeta. rewrite Hk, rules_generic. reflexivity.
Qed.

Lemma C4_process_never_fails_on_strings_witness :
  PyStr.any_in classifier_keywords (PyStr.lower "") = false /\
  exists o',
    Orch.process Orch.init clock (PStr "") "ctxA"
    = (o', Ok [ "Analyze: "%string;
                "Break down requirements for: "%string;
                "Identify resources needed for: "%string;
                "Create action plan for: "%string;
                "Define success metrics for: "%string ]).
Proof.
  assert (PyStr.any_in classifier_keywords (PyStr.lower "") = false) as Hk by reflexivity.
  split; [exact Hk|].
  destruct (C4_process_never_fails_on_strings Orch.init clock "" "ctxA")
    as (o' & items & Hp & _ & _ & _ & Hg).
  destruct (Hg Hk) as [_ ->]. exists o'. exact Hp.
Defined.

(** C6: after a call of [process] that returned [result], the coherence
    score of the context is
    [round(min(commands_processed * len(result) / 10.0, 1.0), 3)] for the
    count of commands the context now has; with 2 commands processed and
    5 items it is 1.0. *)
Theorem C6_context_coherence_formula
    (o : Orch.CognitiveOrchestrator) (now : nat -> string) (command : pyval)
    (context_id : string) (o' : Orch.CognitiveOrchestrator) (result : list string)
    (H : Orch.process o now command context_id = (o', Ok result)) :
  exists c,
    Orch.contexts o' !! context_id = Some c /\
    Orch.coherence_score c
    = PyFloat.py_round
        (PyFloat.py_min
           (PyFloat.div
              (PyFloat.of_int (Orch.commands_processed c * Z.of_nat (length result)))
              PyFloat.ten)
           PyFloat.one) 3 /\
    (Orch.commands_processed c = 2 -> length result = 5%nat ->
     Orch.coherence_score c = PyFloat.one /\
     SFeqb (Orch.coherence_score c) (PyFloat.of_int 1) = true).
Proof.
  unfold Orch.process in H. cbv zeta in H.
  destruct (Orch._decompose_4d command) as [items|e]; [|discriminate].
  injection H as <- <-. simpl.
  unfold Orch._calculate_context_coherence.
  rewrite !lookup_alter_eq, ensure_context_lookup. simpl.
  eexists. split; [reflexivity|]. simpl. split; [reflexivity|].
  intros -> ->. split; vm_compute; reflexivity.
Qed.

Lemma C6_context_coherence_formula_witness :
  exists o' c,
    Orch.process orch_after_hello clock (PStr "hi") "ctxA"
    = (o', Ok (Orch.decompose_str "hi")) /\
    Orch.contexts o' !! "ctxA"%string = Some c /\
    Orch.commands_processed c = 2 /\
    length (Orch.decompose_str "hi") = 5%nat /\
    Orch.coherence_score c = PyFloat.one.
Proof.
  pose (o' := (Orch.process orch_after_hello clock (PStr "hi") "ctxA").1).
  assert (Orch.process orch_after_hello clock (PStr "hi") "ctxA"
          = (o', Ok (Orch.decompose_str "hi"))) as Hp by reflexivity.
  destruct (C6_context_coherence_formula _ _ _ _ _ _ Hp) as (c & Hc & _ & H1).
  assert (Orch.commands_processed c = 2) as H2.
  { vm_compute in Hc. injection Hc as <-. reflexivity. }
  assert (length (Orch.decompose_str "hi") = 5%nat) as H5 by reflexivity.
  destruct (H1 H2 H5) as [Hone _].
  exists o', c. split; [exact Hp|].
  split; [|split; [exact H2 | split; [exact H5 | exact Hone]]].
  exact Hc.
Defined.

(** C9: [clear_context(id)] returns true exactly when the context
    exists, the context is gone afterwards, and every further call for
    that id returns false; after any call of [process] for an id its
    context exists again. *)
Theorem C9_clear_context_true_once
    (o : Orch.CognitiveOrchestrator) (context_id : string) (n : nat) :
  (Orch.clear_context o context_id).2 = bool_decide (context_id ∈ dom (Orch.contexts o)) /\
  Orch.contexts (Orch.clear_context o context_id).1 = delete context_id (Orch.contexts o) /\
  Orch.contexts (Orch.clear_context o context_id).1 !! context_id = None /\
  clear_repeatedly (S n) o context_id
  = bool_decide (context_id ∈ dom (Orch.contexts o)) :: repeat false n /\
  (forall now command,
     (Orch.clear_context (Orch.process o now command context_id).1 context_id).2 = true).
Proof.
  assert (forall k o1, Orch.contexts o1 !! context_id = None ->
            clear_repeatedly k o1 context_id = repeat false k) as Hrep.
  { induction k as [|k IH]; intros o1 Hnone; simpl; [done|].
    unfold Orch.clear_context. rewrite Hnone. f_equal. by apply IH. }
  assert (forall o1, is_Some (Orch.contexts o1 !! context_id) ->
            (Orch.clear_context o1 context_id).2 = true) as Htrue.
  { intros o1 [c Hc]. unfold Orch.clear_context. by rewrite Hc. }
  split; [|split; [|split; [|split]]].
  - unfold Orch.clear_context. destruct (Orch.contexts o !! context_id) eqn:E; simpl.
    + symmetry. apply bool_decide_eq_true. by apply elem_of_dom_2 in E.
    + symmetry. apply bool_decide_eq_false. by apply not_elem_of_dom.
  - unfold Orch.clear_context. destruct (Orch.contexts o !! context_id) eqn:E; simpl;
      [done | by rewrite delete_id].
  - unfold Orch.clear_context. destruct (Orch.contexts o !! context_id) eqn:E; simpl;
      [apply lookup_delete_eq | done].
  - simpl. unfold Orch.clear_context.
    destruct (Orch.contexts o !! context_id) eqn:E; simpl.
    + f_equal.
      * symmetry. apply bool_decide_eq_true. by apply elem_of_dom_2 in E.
      * apply Hrep. simpl. apply lookup_delete_eq.
    + f_equal.
      * symmetry. apply bool_decide_eq_false. by apply not_elem_of_dom.
      * by apply Hrep.
  - intros now command. apply Htrue, process_activates.
Qed.

(* ===================================================================== *)
(** * Dictionaries in insertion order *)
(* ===================================================================== *)

Section OrderedDict.

Context {A : Type}.

Implicit Types (k : string) (x : A) (d : list (string * A)).

Lemma od_get_set_eq k x d : od_get k (od_set k x d) = Some x.
Proof.
  induction d as [|[k0 x0] d IH]; simpl.
  - by rewrite decide_True.
  - destruct (decide (k = k0)) as [->|Hne]; simpl.
    + by rewrite decide_True.
    + by rewrite decide_False.
Qed.

Lemma od_get_set_ne k k' x d : k <> k' -> od_get k' (od_set k x d) = od_get k' d.
Proof.
  intros Hne. induction d as [|[k0 x0] d IH]; simpl.
  - by rewrite decide_False.
  - destruct (decide (k = k0)) as [->|Hne0]; simpl.
    + by rewrite !decide_False.
    + destruct (decide (k' = k0)); [done | exact IH].
Qed.

Lemma od_get_elem k x d : od_get k d = Some x -> (k, x) ∈ d.
Proof.
  induction d as [|[k0 x0] d IH]; simpl; [done|].
  destruct (decide (k = k0)) as [->|Hne].
  - intros [= ->]. apply list_elem_of_here.
  - intros H. apply list_elem_of_further, IH, H.
Qed.

Lemma od_get_is_Some k d : is_Some (od_get k d) <-> k ∈ d.*1.
Proof.
  induction d as [|[k0 x0] d IH]; simpl.
  - split; [by intros [? ?] | by intros ?%elem_of_nil].
  - rewrite elem_of_cons. destruct (decide (k = k0)) as [->|Hne]; simpl.
    + split; [by left | eauto].
    + rewrite IH. naive_solver.
Qed.

Lemma od_set_id k x d : od_get k d = Some x -> od_set k x d = d.
Proof.
  induction d as [|[k0 x0] d IH]; simpl; [done|].
  destruct (decide (k = k0)) as [->|Hne].
  - by intros [= ->].
  - intros H. by rewrite IH.
Qed.

Lemma od_set_keys k x d : forall k', k' ∈ (od_set k x d).*1 <-> k' = k \/ k' ∈ d.*1.
Proof.
  intros k'. induction d as [|[k0 x0] d IH]; simpl.
  - rewrite list_elem_of_singleton. split; [by left | by intros [?|?%elem_of_nil]].
  - destruct (decide (k = k0)) as [->|Hne]; simpl; rewrite !elem_of_cons.
    + naive_solver.
    + rewrite IH. naive_solver.
Qed.

Lemma od_set_NoDup k x d : NoDup d.*1 -> NoDup (od_set k x d).*1.
Proof.
  induction d as [|[k0 x0] d IH]; simpl.
  - intros _. apply NoDup_singleton.
  - rewrite NoDup_cons. intros [Hnin Hnd].
    destruct (decide (k = k0)) as [->|Hne]; simpl; apply NoDup_cons.
    + done.
    + split; [|by apply IH]. rewrite od_set_keys. naive_solver.
Qed.

Lemma od_set_length k x d :
  length (od_set k x d)
  = match od_get k d with Some _ => length d | None => S (length d) end.
Proof.
  induction d as [|[k0 x0] d IH]; simpl; [done|].
  destruct (decide (k = k0)) as [->|Hne]; simpl; [done|].
  rewrite IH. by destruct (od_get k d).
Qed.

End OrderedDict.

(* ===================================================================== *)
(** * The graph library: successors *)
(* ===================================================================== *)

Section Adjacency.

Implicit Types (G : Nx.DiGraph) (n u v : string) (attr : attrs).

Lemma add_node_adj G n attr u : Nx.adj (Nx.add_node G n attr) u = Nx.adj G u.
Proof.
  unfold Nx.adj, Nx.add_node. destruct (Nx.succ G !! n) eqn:E; simpl; [done|].
  destruct (decide (n = u)) as [->|Hne].
  - by rewrite lookup_insert_eq, E.
  - by rewrite lookup_insert_ne.
Qed.

Lemma ensure_node_adj G n u : Nx.adj (Nx.ensure_node G n) u = Nx.adj G u.
Proof.
  unfold Nx.adj, Nx.ensure_node. destruct (Nx.succ G !! n) eqn:E; simpl; [done|].
  destruct (decide (n = u)) as [->|Hne].
  - by rewrite lookup_insert_eq, E.
  - by rewrite lookup_insert_ne.
Qed.

Lemma add_edge_adj_eq G u v attr :
  Nx.adj (Nx.add_edge G u v attr) u
  = od_set v (attr ∪ default ∅ (od_get v (Nx.adj G u))) (Nx.adj G u).
Proof.
  unfold Nx.add_edge. cbv zeta.
  change (default [] (Nx.succ (Nx.ensure_node (Nx.ensure_node G u) v) !! u))
    with (Nx.adj (Nx.ensure_node (Nx.ensure_node G u) v) u).
  rewrite !ensure_node_adj. unfold Nx.adj at 1. simpl. by rewrite lookup_insert_eq.
Qed.

Lemma add_edge_adj_ne G u v attr u' :
  u <> u' -> Nx.adj (Nx.add_edge G u v attr) u' = Nx.adj G u'.
Proof.
  intros Hne. unfold Nx.add_edge. cbv zeta. unfold Nx.adj at 1. simpl.
  rewrite lookup_insert_ne by done.
  change (Nx.adj (Nx.ensure_node (Nx.ensure_node G u) v) u' = Nx.adj G u').
  by rewrite !ensure_node_adj.
Qed.

Lemma add_node_succ_mono G n attr m :
  m ∈ dom (Nx.succ G) -> m ∈ dom (Nx.succ (Nx.add_node G n attr)).
Proof.
  unfold Nx.add_node. destruct (Nx.succ G !! n); simpl; [done|].
  rewrite dom_insert_L. set_solver.
Qed.

Lemma add_edge_succ_dom G u v attr :
  dom (Nx.succ (Nx.add_edge G u v attr)) = {[u; v]} ∪ dom (Nx.succ G).
Proof.
  unfold Nx.add_edge. simpl. rewrite dom_insert_L.
  assert (forall H n, dom (Nx.succ (Nx.ensure_node H n)) = {[n]} ∪ dom (Nx.succ H)) as He.
  { intros H n. unfold Nx.ensure_node. destruct (Nx.succ H !! n) eqn:E; simpl.
    - apply elem_of_dom_2 in E. set_solver.
    - apply dom_insert_L. }
  rewrite !He. set_solver.
Qed.

Lemma ensure_node_id G n : n ∈ dom (Nx.succ G) -> Nx.ensure_node G n = G.
Proof.
  intros [x Hx]%elem_of_dom. unfold Nx.ensure_node. by rewrite Hx.
Qed.

(** An edge listed by [G.edges] is an item of the adjacency of its
    source. *)
Lemma elem_of_edges_adj G u v d : (u, v, d) ∈ Nx.edges G <-> (v, d) ∈ Nx.adj G u.
Proof.
  rewrite elem_of_edges. unfold Nx.adj. split.
  - intros (nbrs & -> & Hin). exact Hin.
  - destruct (Nx.succ G !! u) as [nbrs|]; simpl; [eauto | by intros ?%elem_of_nil].
Qed.

End Adjacency.

(* ===================================================================== *)
(** * The graphs the agent builds *)
(* ===================================================================== *)

Section BuiltGraphs.

Import Causal.

Implicit Types (a : CausalAgent) (G : Nx.DiGraph) (now : nat -> string).

(** Whatever [add_node] keeps, the loop of [integrate_facts] keeps,
    whether it returns or raises. *)
Lemma integrate_loop_graph (P : Nx.DiGraph -> Prop) :
  (forall G n attr, P G -> P (Nx.add_node G n attr)) ->
  forall items a now i acc,
    P (graph a) -> P (graph (integrate_loop a now i items acc).1).
Proof.
  intros Hadd. induction items as [|[k v] items IH]; simpl; intros a now i acc HP; [done|].
  assert (P (graph (integrate_one a now i k v).1)) as H1.
  { destruct (integrate_one_graph a now i k v) as [->|[attr ->]]; [done | by apply Hadd]. }
  destruct (integrate_one a now i k v) as [a1 [id|e]]; simpl in *; [by apply IH | done].
Qed.

(** The graph of a reachable state is made from the empty graph by
    [add_node] and by [add_edge] from the hash of a command to the target
    of a rule, with the label of that rule. *)
Lemma reachable_graph_ind (P : Nx.DiGraph -> Prop) :
  P Nx.empty ->
  (forall G n attr, P G -> P (Nx.add_node G n attr)) ->
  (forall G c v lab, (v, lab) ∈ rule_targets -> P G ->
     P (Nx.add_edge G (command_hash c) v (relation lab))) ->
  forall a, reachable a -> P (graph a).
Proof.
  intros Hempty Hadd Hedge a Hr.
  induction Hr as [|a now c _ IH].
  - unfold init, initialize_base_facts, base_facts. simpl. by repeat apply Hadd.
  - destruct c as [command|facts_data| |start_node max_depth]; simpl.
    + destruct (PyStr.has_surrogate command) eqn:E; [by rewrite build_raises|].
      rewrite build_encodes by done. unfold _build_causal_relationships. simpl.
      repeat match goal with |- context [if ?b then _ else _] => destruct b end;
        repeat (apply Hedge; [unfold rule_targets; set_solver|]); by apply Hadd.
    + destruct facts_data; simpl; try done. by apply integrate_loop_graph.
    + done.
    + unfold get_causal_chain. by destruct (negb _).
Qed.

Lemma reachable_wf a : reachable a -> wf (graph a).
Proof.
  apply (reachable_graph_ind wf).
  - apply wf_empty.
  - intros. by apply add_node_wf.
  - intros. by apply add_edge_wf.
Qed.

Lemma rule_targets_functional v lab lab' :
  (v, lab) ∈ rule_targets -> (v, lab') ∈ rule_targets -> lab = lab'.
Proof.
  unfold rule_targets. rewrite !elem_of_cons, !elem_of_nil.
  intros [[= -> ->]|[[= -> ->]|[[= -> ->]|[]]]] [[= ->]|[[= ->]|[[= ->]|[]]]]; reflexivity.
Qed.

Lemma labelled_add_node G n attr : labelled G -> labelled (Nx.add_node G n attr).
Proof. intros H u v d. rewrite add_node_adj. apply H. Qed.

Lemma labelled_add_edge G u v lab :
  (v, lab) ∈ rule_targets -> labelled G ->
  labelled (Nx.add_edge G u v (relation lab)).
Proof.
  intros Hv H u' w d. destruct (decide (u = u')) as [<-|Hne].
  - rewrite add_edge_adj_eq. intros [[= -> ->]|Hin]%elem_of_od_set; [|exact (H _ _ _ Hin)].
    exists lab. split; [done|].
    destruct (od_get v (Nx.adj G u)) as [old|] eqn:E; simpl.
    + apply od_get_elem, H in E as (lab' & Hlab' & ->).
      rewrite (rule_targets_functional _ _ _ Hlab' Hv). apply (idemp_L (∪)).
    + apply (right_id_L ∅ (∪)).
  - rewrite add_edge_adj_ne by done. apply H.
Qed.

Lemma reachable_labelled a : reachable a -> labelled (graph a).
Proof.
  apply (reachable_graph_ind labelled).
  - intros u v d H. by apply elem_of_nil in H.
  - intros. by apply labelled_add_node.
  - intros. by apply labelled_add_edge.
Qed.

Lemma command_hash_is_hex_id c : is_hex_id (command_hash c) = true.
Proof.
  destruct (command_hash_hex c) as [w ->]. unfold is_hex_id.
  destruct (hex_word_chars w) as [-> ->]. reflexivity.
Qed.

Lemma reachable_sourced a : reachable a -> sourced (graph a).
Proof.
  apply (reachable_graph_ind sourced).
  - intros u H. by destruct H.
  - intros G n attr H u. rewrite add_node_adj. apply H.
  - intros G c v lab _ H u. destruct (decide (command_hash c = u)) as [<-|Hne].
    + intros _. apply command_hash_is_hex_id.
    + rewrite add_edge_adj_ne by done. apply H.
Qed.

Lemma reachable_simple a : reachable a -> simple (graph a).
Proof.
  apply (reachable_graph_ind simple).
  - intros u. apply NoDup_nil_2.
  - intros G n attr H u. rewrite add_node_adj. apply H.
  - intros G c v lab _ H u. destruct (decide (command_hash c = u)) as [<-|Hne].
    + rewrite add_edge_adj_eq. apply od_set_NoDup, H.
    + rewrite add_edge_adj_ne by done. apply H.
Qed.

End BuiltGraphs.

(* ===================================================================== *)
(** * Growth of the two stores *)
(* ===================================================================== *)

Section Growth.

Import Causal.

Implicit Types (a : CausalAgent) (G : Nx.DiGraph) (now : nat -> string).

Lemma grows_refl G : grows G G.
Proof. split; [done | auto]. Qed.

Lemma grows_trans G1 G2 G3 : grows G1 G2 -> grows G2 G3 -> grows G1 G3.
Proof. intros [H1 H2] [H3 H4]. split; [set_solver | auto]. Qed.

Lemma grows_add_node G n attr : grows G (Nx.add_node G n attr).
Proof.
  split.
  - rewrite add_node_dom. set_solver.
  - intros u v. unfold has_edge. by rewrite add_node_adj.
Qed.

Lemma ensure_node_node G n : dom (Nx.node G) ⊆ dom (Nx.node (Nx.ensure_node G n)).
Proof.
  unfold Nx.ensure_node. destruct (Nx.succ G !! n); simpl; [done|].
  rewrite dom_insert_L. set_solver.
Qed.

Lemma grows_add_edge G u v attr : grows G (Nx.add_edge G u v attr).
Proof.
  split.
  - unfold Nx.add_edge. simpl.
    etransitivity; [apply (ensure_node_node G u) | apply ensure_node_node].
  - intros u' v'. unfold has_edge. destruct (decide (u = u')) as [<-|Hne].
    + rewrite add_edge_adj_eq, !od_get_is_Some, od_set_keys. auto.
    + by rewrite add_edge_adj_ne.
Qed.

Lemma grows_build_relationships G node_id command :
  grows G (_build_causal_relationships G node_id command).
Proof.
  unfold _build_causal_relationships. cbv zeta.
  repeat match goal with |- context [if ?b then _ else _] => destruct b end;
    repeat (eapply grows_trans; [|apply grows_add_edge]); apply grows_refl.
Qed.

Lemma integrate_one_facts a now i k v :
  dom (facts_db a) ⊆ dom (facts_db (integrate_one a now i k v).1).
Proof.
  unfold integrate_one, Nx.call_add_node.
  destruct v; simpl; try done;
    match goal with |- context [if ?b then _ else _] => destruct b end;
    simpl; rewrite dom_insert_L; set_solver.
Qed.

Lemma integrate_loop_facts items : forall a now i acc,
  dom (facts_db a) ⊆ dom (facts_db (integrate_loop a now i items acc).1).
Proof.
  induction items as [|[k v] items IH]; simpl; intros a now i acc; [done|].
  pose proof (integrate_one_facts a now i k v) as H1.
  destruct (integrate_one a now i k v) as [a1 [id|e]]; simpl in *; [|done].
  etransitivity; [exact H1 | apply IH].
Qed.

Lemma run_grows a now c :
  dom (facts_db a) ⊆ dom (facts_db (run a now c)) /\ grows (graph a) (graph (run a now c)).
Proof.
  destruct c as [command|facts_data| |start_node max_depth]; simpl.
  - split; [by rewrite build_facts|].
    destruct (PyStr.has_surrogate command) eqn:E;
      [rewrite build_raises by done; apply grows_refl|].
    rewrite build_encodes by done. simpl.
    eapply grows_trans; [apply grows_add_node | apply grows_build_relationships].
  - destruct facts_data; simpl; try (split; [done | apply grows_refl]).
    split; [apply integrate_loop_facts|].
    apply (integrate_loop_graph (grows (graph a))); [|apply grows_refl].
    intros G n attr HG. eapply grows_trans; [exact HG | apply grows_add_node].
  - split; [done | apply grows_refl].
  - unfold get_causal_chain. destruct (negb _); (split; [done | apply grows_refl]).
Qed.

Lemma reachable_seeds a :
  reachable a -> seed_ids ⊆ dom (facts_db a) /\ seed_ids ⊆ dom (Nx.node (graph a)).
Proof.
  induction 1 as [|a now c _ [IH1 IH2]].
  - by rewrite init_facts, init_nodes.
  - destruct (run_grows a now c) as [Hf [Hn _]]. split; set_solver.
Qed.

End Growth.

(** X1: no call removes anything.  Whatever the state and the call, and
    whether the call returns or raises, every key of the fact registry,
    every node and every edge is still there afterwards. *)
Theorem X1_stores_only_grow (a : Causal.CausalAgent) (now : nat -> string) (c : call) :
  dom (Causal.facts_db a) ⊆ dom (Causal.facts_db (run a now c)) /\
  dom (Nx.node (Causal.graph a)) ⊆ dom (Nx.node (Causal.graph (run a now c))) /\
  forall u v, has_edge (Causal.graph a) u v -> has_edge (Causal.graph (run a now c)) u v.
Proof. destruct (run_grows a now c) as [Hf [Hn He]]. auto. Qed.

(** X2: in every reachable state the three seed facts are keys of the
    registry and nodes of the graph. *)
Theorem X2_seed_facts_stay (a : Causal.CausalAgent) (H : reachable a) :
  Causal.seed_ids ⊆ dom (Causal.facts_db a) /\
  Causal.seed_ids ⊆ dom (Nx.node (Causal.graph a)).
Proof. exact (reachable_seeds a H). Qed.

Lemma X2_seed_facts_stay_witness :
  reachable agent_after_plan /\
  Causal.seed_ids ⊆ dom (Causal.facts_db agent_after_plan).
Proof.
  assert (reachable agent_after_plan) as Hr by apply reachable_run, reachable_init.
  split; [exact Hr|]. exact (proj1 (X2_seed_facts_stay agent_after_plan Hr)).
Defined.

(** X3: in every reachable state an edge starts at a node whose id is 8
    hexadecimal characters, the id of a command, and ends at a seed fact
    that has no successor itself: no path has two edges. *)
Theorem X3_edges_from_commands_to_leaves (a : Causal.CausalAgent) (H : reachable a)
    (u v : string) (d : attrs) :
  (u, v, d) ∈ Nx.edges (Causal.graph a) ->
  is_hex_id u = true /\ is_hex_id v = false /\ Nx.adj (Causal.graph a) v = [].
Proof.
  rewrite elem_of_edges_adj. intros Hin.
  pose proof (reachable_sourced a H) as Hs.
  destruct (reachable_labelled a H u v d Hin) as (lab & Hlab & _).
  assert (is_hex_id v = false) as Hv.
  { unfold rule_targets in Hlab. rewrite !elem_of_cons, elem_of_nil in Hlab.
    destruct Hlab as [[= -> _]|[[= -> _]|[[= -> _]|[]]]]; reflexivity. }
  split; [|split; [exact Hv|]].
  - apply Hs. intros E. rewrite E in Hin. by apply elem_of_nil in Hin.
  - destruct (Nx.adj (Causal.graph a) v) eqn:E; [done|].
    rewrite Hs in Hv; [discriminate | by rewrite E].
Qed.

Lemma X3_edges_from_commands_to_leaves_witness :
  reachable agent_after_plan /\
  ("f087cb3b"%string, "gym_move"%string, Causal.relation "action")
    ∈ Nx.edges (Causal.graph agent_after_plan) /\
  Nx.adj (Causal.graph agent_after_plan) "gym_move" = [].
Proof.
  assert (reachable agent_after_plan) as Hr by apply reachable_run, reachable_init.
  assert (("f087cb3b"%string, "gym_move"%string, Causal.relation "action")
          ∈ Nx.edges (Causal.graph agent_after_plan)) as He.
  { apply elem_of_edges. exists [("gym_move"%string, Causal.relation "action")].
    split; [vm_compute; reflexivity | apply list_elem_of_singleton; reflexivity]. }
  split; [exact Hr|]. split; [exact He|].
  exact (proj2 (proj2 (X3_edges_from_commands_to_leaves _ Hr _ _ _ He))).
Defined.

(** X4: in every reachable state the data of an edge is one entry,
    [relation], whose value is fixed by the target: temporal for
    mom_birthday, action for gym_move, system for ecosystem_bind. *)
Theorem X4_relation_fixed_by_target (a : Causal.CausalAgent) (H : reachable a)
    (u v : string) (d : attrs) :
  (u, v, d) ∈ Nx.edges (Causal.graph a) ->
  (v = "mom_birthday"%string /\ d = {["relation"%string := PStr "temporal"]}) \/
  (v = "gym_move"%string /\ d = {["relation"%string := PStr "action"]}) \/
  (v = "ecosystem_bind"%string /\ d = {["relation"%string := PStr "system"]}).
Proof.
  rewrite elem_of_edges_adj. intros Hin.
  destruct (reachable_labelled a H u v d Hin) as (lab & Hlab & ->).
  unfold rule_targets in Hlab. rewrite !elem_of_cons, elem_of_nil in Hlab.
  destruct Hlab as [[= -> ->]|[[= -> ->]|[[= -> ->]|[]]]]; auto.
Qed.

Lemma X4_relation_fixed_by_target_witness :
  reachable agent_after_plan /\
  ("f087cb3b"%string, "gym_move"%string, Causal.relation "action")
    ∈ Nx.edges (Causal.graph agent_after_plan).
Proof.
  assert (reachable agent_after_plan) as Hr by apply reachable_run, reachable_init.
  assert (("f087cb3b"%string, "gym_move"%string, Causal.relation "action")
          ∈ Nx.edges (Causal.graph agent_after_plan)) as He.
  { apply elem_of_edges. exists [("gym_move"%string, Causal.relation "action")].
    split; [vm_compute; reflexivity | apply list_elem_of_singleton; reflexivity]. }
  split; [exact Hr|].
  destruct (X4_relation_fixed_by_target _ Hr _ _ _ He) as [[_ _]|[[_ _]|[_ _]]]; exact He.
Defined.

(** X5: in every reachable state a node has at most one edge to each
    target and at most three edges in all. *)
Theorem X5_one_edge_per_pair (a : Causal.CausalAgent) (H : reachable a) (u : string) :
  NoDup (Nx.adj (Causal.graph a) u).*1 /\
  (length (Nx.adj (Causal.graph a) u) <= 3)%nat.
Proof.
  pose proof (reachable_simple a H u) as Hnd. split; [exact Hnd|].
  rewrite <- (length_fmap fst).
  change 3%nat with (length ["mom_birthday"; "gym_move"; "ecosystem_bind"]%string).
  apply submseteq_length, NoDup_submseteq; [exact Hnd|].
  intros v [[v' d] [-> Hin]]%list_elem_of_fmap. simpl.
  destruct (reachable_labelled a H u v' d Hin) as (lab & Hlab & _).
  unfold rule_targets in Hlab. rewrite !elem_of_cons, elem_of_nil in Hlab.
  destruct Hlab as [[= -> _]|[[= -> _]|[[= -> _]|[]]]]; set_solver.
Qed.

Lemma X5_one_edge_per_pair_witness :
  reachable agent_after_plan /\
  (length (Nx.adj (Causal.graph agent_after_plan) "f087cb3b") <= 3)%nat.
Proof.
  assert (reachable agent_after_plan) as Hr by apply reachable_run, reachable_init.
  split; [exact Hr|]. exact (proj2 (X5_one_edge_per_pair _ Hr "f087cb3b")).
Defined.

(* ===================================================================== *)
(** * Building the graph of one command twice *)
(* ===================================================================== *)

Section Rebuild.

Import Causal.

Implicit Types (a : CausalAgent) (G : Nx.DiGraph) (now : nat -> string).

Lemma relation_over_old G u v lab :
  labelled G -> (v, lab) ∈ rule_targets ->
  relation lab ∪ default ∅ (od_get v (Nx.adj G u)) = relation lab.
Proof.
  intros HG Hv. destruct (od_get v (Nx.adj G u)) as [old|] eqn:E; simpl.
  - apply od_get_elem, HG in E as (lab' & Hlab' & ->).
    rewrite (rule_targets_functional _ _ _ Hlab' Hv). apply (idemp_L (∪)).
  - apply (right_id_L ∅ (∪)).
Qed.

Lemma linked_new G u v lab :
  labelled G -> (v, lab) ∈ rule_targets ->
  linked (Nx.add_edge G u v (relation lab)) u v lab.
Proof.
  intros HG Hv. split; [exact Hv|]. rewrite add_edge_succ_dom.
  split; [set_solver|]. split; [set_solver|].
  by rewrite add_edge_adj_eq, od_get_set_eq, relation_over_old.
Qed.

Lemma linked_keep_edge G u v lab u' v' lab' :
  labelled G -> (v', lab') ∈ rule_targets ->
  linked G u v lab -> linked (Nx.add_edge G u' v' (relation lab')) u v lab.
Proof.
  intros HG Hv' (Hv & Hu & Hvn & Hget). split; [exact Hv|]. rewrite add_edge_succ_dom.
  split; [set_solver|]. split; [set_solver|].
  destruct (decide (u' = u)) as [->|Hne]; [|by rewrite add_edge_adj_ne].
  rewrite add_edge_adj_eq. destruct (decide (v' = v)) as [->|Hnv].
  - rewrite od_get_set_eq, relation_over_old by done.
    by rewrite (rule_targets_functional _ _ _ Hv' Hv).
  - by rewrite od_get_set_ne.
Qed.

Lemma linked_keep_node G u v lab n attr :
  linked G u v lab -> linked (Nx.add_node G n attr) u v lab.
Proof.
  intros (Hv & Hu & Hvn & Hget). split; [exact Hv|].
  split; [by apply add_node_succ_mono|]. split; [by apply add_node_succ_mono|].
  by rewrite add_node_adj.
Qed.

(** Adding an edge that is there with its label changes nothing. *)
Lemma add_edge_linked G u v lab :
  linked G u v lab -> Nx.add_edge G u v (relation lab) = G.
Proof.
  intros (Hv & Hu & Hvn & Hget). unfold Nx.add_edge. cbv zeta.
  rewrite (ensure_node_id G u Hu), (ensure_node_id G v Hvn).
  change (default [] (Nx.succ G !! u)) with (Nx.adj G u).
  rewrite Hget. simpl. rewrite (idemp_L (∪)), (od_set_id _ _ _ Hget).
  apply elem_of_dom in Hu as [nbrs Hn]. unfold Nx.adj. rewrite Hn. simpl.
  rewrite (insert_id _ _ _ Hn). by destruct G.
Qed.

Lemma rule_mom : ("mom_birthday"%string, "temporal"%string) ∈ rule_targets.
Proof. unfold rule_targets. set_solver. Qed.

Lemma rule_gym : ("gym_move"%string, "action"%string) ∈ rule_targets.
Proof. unfold rule_targets. set_solver. Qed.

Lemma rule_eco : ("ecosystem_bind"%string, "system"%string) ∈ rule_targets.
Proof. unfold rule_targets. set_solver. Qed.

Ltac solve_labelled :=
  repeat first [ apply labelled_add_edge; [assumption|] | apply labelled_add_node ];
  assumption.

Ltac solve_linked :=
  repeat first [ apply linked_new; [solve_labelled | assumption]
               | apply linked_keep_node
               | apply linked_keep_edge; [solve_labelled | assumption |] ].

(** Once a command is linked, linking it again, also after nodes were
    added, leaves the graph as it is. *)
Lemma build_relationships_again G node_id command n attr :
  labelled G ->
  _build_causal_relationships
    (Nx.add_node (_build_causal_relationships G node_id command) n attr) node_id command
  = Nx.add_node (_build_causal_relationships G node_id command) n attr.
Proof.
  intros HG. pose proof rule_mom. pose proof rule_gym. pose proof rule_eco.
  unfold _build_causal_relationships. cbv zeta.
  repeat match goal with |- context [if ?b then _ else _] => destruct b end;
    cbv iota;
    repeat match goal with
           | |- Nx.add_edge ?G1 ?u ?v (relation ?lab) = _ =>
               rewrite (add_edge_linked G1 u v lab) by solve_linked
           end;
    reflexivity.
Qed.

Lemma build_relationships_succ G node_id command :
  node_id ∈ dom (Nx.succ G) ->
  node_id ∈ dom (Nx.succ (_build_causal_relationships G node_id command)).
Proof.
  intros H. unfold _build_causal_relationships. cbv zeta.
  repeat match goal with |- context [if ?b then _ else _] => destruct b end;
    rewrite ?add_edge_succ_dom; set_solver.
Qed.

End Rebuild.

(** X6: building the graph of the same command a second time, from any
    reachable state, adds no node and no edge: the second call gives
    what the first gave, the same counts and coherence, or the same
    UnicodeEncodeError when the command has a lone surrogate, and the
    adjacency of the graph is unchanged. *)
Theorem X6_build_graph_twice (a : Causal.CausalAgent) (H : reachable a)
    (now1 now2 : nat -> string) (command : string) :
  let first := Causal.build_4d_graph a now1 command in
  let second := Causal.build_4d_graph first.1 now2 command in
  second.2 = first.2 /\
  is_ok first.2 = negb (PyStr.has_surrogate command) /\
  Nx.succ (Causal.graph second.1) = Nx.succ (Causal.graph first.1) /\
  dom (Nx.node (Causal.graph second.1)) = dom (Nx.node (Causal.graph first.1)) /\
  Causal.facts_db second.1 = Causal.facts_db a.
Proof.
  cbv zeta. destruct (PyStr.has_surrogate command) eqn:Eenc.
  { rewrite (build_raises a now1 command Eenc). simpl.
    rewrite (build_raises a now2 command Eenc). done. }
  rewrite (build_encodes a now1 command Eenc). cbv zeta. simpl.
  rewrite (build_encodes _ now2 command Eenc). cbv zeta. simpl.
  set (h := Causal.command_hash command).
  set (G0 := Nx.add_node (Causal.graph a) h
               (Causal.fact_record command (now1 0%nat) "command" Causal.default_attribution)).
  assert (labelled G0) as HL by (apply labelled_add_node, reachable_labelled, H).
  rewrite (build_relationships_again G0 h command h _ HL).
  set (G1 := Causal._build_causal_relationships G0 h command).
  assert (wf G1) as Hwf.
  { apply build_relationships_wf, add_node_wf, reachable_wf, H. }
  assert (h ∈ dom (Nx.succ G1)) as Hh.
  { apply build_relationships_succ. unfold G0, Nx.add_node.
    destruct (Nx.succ (Causal.graph a) !! h) eqn:E; simpl.
    - by apply elem_of_dom_2 in E.
    - rewrite dom_insert_L. set_solver. }
  assert (Nx.succ (Nx.add_node G1 h
            (Causal.fact_record command (now2 0%nat) "command" Causal.default_attribution))
          = Nx.succ G1) as Hs.
  { apply elem_of_dom in Hh as [nbrs Hn]. unfold Nx.add_node. by rewrite Hn. }
  assert (dom (Nx.node (Nx.add_node G1 h
            (Causal.fact_record command (now2 0%nat) "command" Causal.default_attribution)))
          = dom (Nx.node G1)) as Hd.
  { rewrite add_node_dom. rewrite Hwf. set_solver. }
  assert (Nx.number_of_nodes (Nx.add_node G1 h
            (Causal.fact_record command (now2 0%nat) "command" Causal.default_attribution))
          = Nx.number_of_nodes G1) as Hn.
  { unfold Nx.number_of_nodes. by rewrite <- !size_dom, Hd. }
  assert (Nx.number_of_edges (Nx.add_node G1 h
            (Causal.fact_record command (now2 0%nat) "command" Causal.default_attribution))
          = Nx.number_of_edges G1) as He.
  { unfold Nx.number_of_edges. by rewrite Hs. }
  split; [|split; [reflexivity | split; [exact Hs | split; [exact Hd | reflexivity]]]].
  unfold Causal._calculate_coherence. by rewrite Hn, He.
Qed.

Lemma X6_build_graph_twice_witness :
  reachable Causal.init /\
  (Causal.build_4d_graph (Causal.build_4d_graph Causal.init clock "plan SF move").1
     clock "plan SF move").2
  = Ok {| Causal.coherence := PyFloat.int_truediv 1 4;
          Causal.nodes := 4; Causal.edges := 1 |}.
Proof.
  split; [apply reachable_init|].
  destruct (X6_build_graph_twice Causal.init reachable_init clock clock "plan SF move")
    as [-> _].
  vm_compute. reflexivity.
Defined.

(* ===================================================================== *)
(** * Integrating facts *)
(* ===================================================================== *)

Section Integration.

Import Causal.

Implicit Types (a : CausalAgent) (G : Nx.DiGraph) (now : nat -> string).

Lemma dict_of_items_dom items : dom (dict_of_items items) = list_to_set items.*1.
Proof.
  unfold dict_of_items.
  assert (forall d : attrs,
            dom (fold_left (fun d kv => <[kv.1 := kv.2]> d) items d)
            = list_to_set items.*1 ∪ dom d) as H.
  { induction items as [|[k v] items IH]; simpl; intros d; [set_solver|].
    rewrite IH, dom_insert_L. set_solver. }
  rewrite H, dom_empty_L. set_solver.
Qed.

(** The two keywords reach [add_node] only from the keys of the fact. *)
Lemma reserved_keyword items t x :
  bool_decide ("self"%string ∈ dom (<["attribution" := x]> (<["timestamp" := PStr t]> (dict_of_items items))))
  || bool_decide ("node_for_adding"%string
                  ∈ dom (<["attribution" := x]> (<["timestamp" := PStr t]> (dict_of_items items))))
  = bool_decide ("self"%string ∈ items.*1) || bool_decide ("node_for_adding"%string ∈ items.*1).
Proof.
  rewrite !dom_insert_L, dict_of_items_dom.
  f_equal; apply bool_decide_ext; rewrite !elem_of_union, !elem_of_singleton, elem_of_list_to_set;
    split; auto; intros [?|[?|?]]; done.
Qed.

(** One turn of the loop, read through [stored_record] and [acceptable]. *)
Lemma integrate_one_spec a now i k v :
  integrate_one a now i k v
  = match stored_record v (now i) with
    | None => (a, Raise TypeError)
    | Some entry =>
        if acceptable v
        then ({| graph := Nx.add_node (graph a) k entry;
                 facts_db := <[k := entry]> (facts_db a) |}, Ok k)
        else ({| graph := graph a; facts_db := <[k := entry]> (facts_db a) |},
              Raise TypeError)
    end.
Proof.
  unfold integrate_one, stored_record, Nx.call_add_node, acceptable.
  destruct v; try reflexivity. simpl. rewrite reserved_keyword.
  by destruct (_ || _).
Qed.

Lemma stored_record_acceptable v t : acceptable v = true -> is_Some (stored_record v t).
Proof. destruct v; try discriminate; intros _; unfold stored_record; simpl; eauto. Qed.

(** The loop on a list of items in two parts. *)
Lemma integrate_loop_app l1 : forall l2 a now i acc,
  integrate_loop a now i (l1 ++ l2) acc
  = match integrate_loop a now i l1 acc with
    | (a1, Ok ids) => integrate_loop a1 now (i + length l1) l2 ids
    | (a1, Raise e) => (a1, Raise e)
    end.
Proof.
  induction l1 as [|[k v] l1 IH]; simpl; intros l2 a now i acc.
  - by rewrite Nat.add_0_r.
  - destruct (integrate_one a now i k v) as [a1 [id|e]]; [|done].
    rewrite IH. by rewrite Nat.add_succ_r.
Qed.

(** The loop returns exactly when every value is acceptable, and then it
    returns the keys in the order of the items. *)
Lemma integrate_loop_result items : forall a now i acc,
  (integrate_loop a now i items acc).2
  = if forallb acceptable items.*2 then Ok (acc ++ items.*1) else Raise TypeError.
Proof.
  induction items as [|[k v] items IH]; simpl; intros a now i acc.
  - by rewrite app_nil_r.
  - rewrite integrate_one_spec.
    destruct (acceptable v) eqn:Ev.
    + destruct (stored_record_acceptable v (now i) Ev) as [entry ->]. simpl.
      rewrite IH, <- app_assoc. reflexivity.
    + simpl. by destruct (stored_record v (now i)).
Qed.

Lemma add_node_lookup_eq G n attr :
  wf G -> Nx.node (Nx.add_node G n attr) !! n = Some (attr ∪ default ∅ (Nx.node G !! n)).
Proof.
  intros Hwf. unfold Nx.add_node. destruct (Nx.succ G !! n) eqn:E; simpl.
  - apply lookup_insert_eq.
  - rewrite lookup_insert_eq. apply not_elem_of_dom in E. rewrite <- Hwf in E.
    apply not_elem_of_dom in E. rewrite E. simpl. by rewrite (right_id_L ∅ (∪)).
Qed.

Lemma add_node_lookup_ne G n attr n' :
  n <> n' -> Nx.node (Nx.add_node G n attr) !! n' = Nx.node G !! n'.
Proof.
  intros Hne. unfold Nx.add_node. destruct (Nx.succ G !! n); simpl; by rewrite lookup_insert_ne.
Qed.

(** What the loop leaves in the registry and in the graph when it
    returns and the keys of the items are distinct. *)
Lemma integrate_loop_lookup items : forall a now i acc a' ids,
  integrate_loop a now i items acc = (a', Ok ids) ->
  NoDup items.*1 -> wf (graph a) ->
  (forall j k v, items !! j = Some (k, v) ->
     facts_db a' !! k = stored_record v (now (i + j)%nat) /\
     Nx.node (graph a') !! k
     = (fun entry => entry ∪ default ∅ (Nx.node (graph a) !! k)) <$> stored_record v (now (i + j)%nat)) /\
  (forall k, k ∉ items.*1 ->
     facts_db a' !! k = facts_db a !! k /\
     Nx.node (graph a') !! k = Nx.node (graph a) !! k).
Proof.
  induction items as [|[k0 v0] items IH]; simpl; intros a now i acc a' ids Hrun Hnd Hwf.
  - injection Hrun as <- <-. split; [by intros j k v ?|done].
  - apply NoDup_cons in Hnd as [Hk0 Hnd].
    rewrite integrate_one_spec in Hrun.
    destruct (stored_record v0 (now i)) as [entry|] eqn:Es; [|discriminate].
    destruct (acceptable v0); [|discriminate].
    apply IH in Hrun as [Hin Hout]; [|done|by apply add_node_wf]. simpl in *.
    split.
    + intros [|j] k v Hj; simpl in Hj.
      * injection Hj as -> ->. rewrite Nat.add_0_r, Es.
        destruct (Hout k Hk0) as [-> ->].
        by rewrite lookup_insert_eq, add_node_lookup_eq.
      * destruct (Hin j k v Hj) as [H1 H2]. rewrite Nat.add_succ_r. split; [exact H1|].
        rewrite H2. rewrite add_node_lookup_ne; [done|].
        intros ->. apply Hk0. apply list_elem_of_fmap. exists (k, v).
        split; [done|]. by eapply list_elem_of_lookup_2.
    + intros k Hk. apply not_elem_of_cons in Hk as [Hne Hk].
      destruct (Hout k Hk) as [-> ->].
      by rewrite lookup_insert_ne, add_node_lookup_ne.
Qed.

End Integration.

(** X7: on a mapping, [integrate_facts] returns exactly when every value
    is a string or a mapping without the keys self and node_for_adding;
    it then returns the keys of the payload in their order, and raises
    TypeError otherwise. *)
Theorem X7_integrate_facts_result (a : Causal.CausalAgent) (now : nat -> string)
    (items : list (string * pyval)) :
  (Causal.integrate_facts a now (PDict items)).2
  = if forallb acceptable items.*2 then Ok items.*1 else Raise TypeError.
Proof. simpl. apply (integrate_loop_result items a now 0%nat []). Qed.

(** X8: after [integrate_facts] returned on a payload with distinct keys,
    [get_facts] shows under each key the record made of its value, with
    the time of its turn of the loop and the default attribution when
    none was given, and shows every other key as before. *)
Theorem X8_integrate_then_get_facts (a a' : Causal.CausalAgent) (now now' : nat -> string)
    (items : list (string * pyval)) (ids : list string)
    (Hrun : Causal.integrate_facts a now (PDict items) = (a', Ok ids))
    (Hkeys : NoDup items.*1) (Hwf : reachable a) :
  (forall j k v, items !! j = Some (k, v) ->
     Causal.facts (Causal.get_facts a' now').2 !! k = stored_record v (now j)) /\
  (forall k, k ∉ items.*1 ->
     Causal.facts (Causal.get_facts a' now').2 !! k = Causal.facts_db a !! k) /\
  (forall k s, (k, PStr s) ∈ items ->
     exists t, Causal.facts (Causal.get_facts a' now').2 !! k
     = Some (<["attribution" := PStr Causal.default_attribution]>
               (<["timestamp" := PStr t]> {["content"%string := PStr s]}))).
Proof.
  simpl in Hrun.
  destruct (integrate_loop_lookup items a now 0%nat [] a' ids Hrun Hkeys (reachable_wf a Hwf))
    as [Hin Hout].
  simpl. split; [|split].
  - intros j k v Hj. exact (proj1 (Hin j k v Hj)).
  - intros k Hk. exact (proj1 (Hout k Hk)).
  - intros k s [j Hj]%list_elem_of_lookup_1. exists (now j).
    rewrite (proj1 (Hin j k _ Hj)). reflexivity.
Qed.

Lemma X8_integrate_then_get_facts_witness :
  exists a',
    Causal.integrate_facts Causal.init clock (PDict [("x"%string, PStr "hello")])
    = (a', Ok ["x"%string]) /\
    NoDup [("x"%string, PStr "hello")].*1 /\
    reachable Causal.init /\
    Causal.facts (Causal.get_facts a' clock).2 !! "x"%string
    = stored_record (PStr "hello") (clock 0%nat).
Proof.
  eexists. split; [reflexivity|].
  assert (NoDup [("x"%string, PStr "hello")].*1) as Hnd
    by (apply NoDup_singleton).
  split; [exact Hnd|]. split; [apply reachable_init|].
  exact (proj1 (X8_integrate_then_get_facts Causal.init _ clock clock
                  [("x"%string, PStr "hello")] ["x"%string] eq_refl Hnd reachable_init)
               0%nat "x"%string (PStr "hello") eq_refl).
Defined.

(** X9: where the registry replaces the record of a fact, the graph
    updates the data of its node: after [integrate_facts] returned, the
    data of the node is the new record over the data the node had, so
    entries of the old data that the new record lacks stay in the
    graph. *)
Theorem X9_node_data_is_updated (a a' : Causal.CausalAgent) (now : nat -> string)
    (items : list (string * pyval)) (ids : list string)
    (Hrun : Causal.integrate_facts a now (PDict items) = (a', Ok ids))
    (Hkeys : NoDup items.*1) (Hr : reachable a)
    (j : nat) (k : string) (v : pyval) (Hj : items !! j = Some (k, v)) :
  exists entry,
    Causal.facts_db a' !! k = Some entry /\
    Nx.node (Causal.graph a') !! k
    = Some (entry ∪ default ∅ (Nx.node (Causal.graph a) !! k)) /\
    (forall key x, entry !! key = None ->
       Nx.node (Causal.graph a) !! k ≫= (fun old => old !! key) = Some x ->
       Nx.node (Causal.graph a') !! k ≫= (fun data => data !! key) = Some x).
Proof.
  simpl in Hrun.
  destruct (integrate_loop_lookup items a now 0%nat [] a' ids Hrun Hkeys (reachable_wf a Hr))
    as [Hin _].
  destruct (Hin j k v Hj) as [Hf Hn]. simpl in Hf, Hn.
  destruct (stored_record v (now j)) as [entry|] eqn:Es.
  - exists entry. split; [exact Hf|]. split; [exact Hn|].
    intros key x Hnone Hold. rewrite Hn. simpl.
    destruct (Nx.node (Causal.graph a) !! k) as [old|]; simpl in *; [|done].
    by rewrite lookup_union_r.
  - exfalso.
    pose proof (integrate_loop_result items a now 0%nat []) as Hres.
    rewrite Hrun in Hres. simpl in Hres.
    destruct (forallb acceptable items.*2) eqn:Eacc; [|discriminate].
    rewrite forallb_forall in Eacc.
    assert (acceptable v = true) as Hv.
    { apply Eacc. apply list_elem_of_In, list_elem_of_fmap. exists (k, v).
      split; [done|]. by eapply list_elem_of_lookup_2. }
    destruct (stored_record_acceptable v (now j) Hv) as [e He]. congruence.
Qed.

Lemma X9_node_data_is_updated_witness :
  exists a' entry,
    Causal.integrate_facts Causal.init clock (PDict [("gym_move"%string, PStr "moved")])
    = (a', Ok ["gym_move"%string]) /\
    NoDup [("gym_move"%string, PStr "moved")].*1 /\
    reachable Causal.init /\
    Causal.facts_db a' !! "gym_move"%string = Some entry /\
    Nx.node (Causal.graph a') !! "gym_move"%string
    = Some (entry ∪ default ∅ (Nx.node (Causal.graph Causal.init) !! "gym_move"%string)).
Proof.
  assert (NoDup [("gym_move"%string, PStr "moved")].*1) as Hnd by apply NoDup_singleton.
  destruct (X9_node_data_is_updated Causal.init _ clock
              [("gym_move"%string, PStr "moved")] ["gym_move"%string] eq_refl Hnd
              reachable_init 0%nat "gym_move"%string (PStr "moved") eq_refl)
    as (entry & Hf & Hn & _).
  eexists _, entry. split; [reflexivity|]. split; [exact Hnd|].
  split; [apply reachable_init|]. split; [exact Hf | exact Hn].
Defined.

(** After [integrate_facts({"gym_move": "moved"})] the registry has no
    type for gym_move and the node still has the type action. *)
Example integrate_keeps_node_type :
  Causal.facts_db (Causal.integrate_facts Causal.init clock
                     (PDict [("gym_move"%string, PStr "moved")])).1
    !! "gym_move"%string ≫= (fun e => e !! "type"%string) = None /\
  Nx.node (Causal.graph (Causal.integrate_facts Causal.init clock
                           (PDict [("gym_move"%string, PStr "moved")])).1)
    !! "gym_move"%string ≫= (fun e => e !! "type"%string) = Some (PStr "action").
Proof. split; vm_compute; reflexivity. Qed.

(** X10: [integrate_facts] is not all or nothing.  When the values before
    some item are acceptable and the value of that item is not, the call
    raises TypeError with the earlier items integrated, the item itself
    written to the registry alone if it is a mapping, and the later
    items not looked at. *)
Theorem X10_integrate_facts_stops_midway (a : Causal.CausalAgent) (now : nat -> string)
    (good rest : list (string * pyval)) (k : string) (bad : pyval)
    (Hgood : forallb acceptable good.*2 = true) (Hbad : acceptable bad = false) :
  let a1 := (Causal.integrate_facts a now (PDict good)).1 in
  (Causal.integrate_facts a now (PDict good)).2 = Ok good.*1 /\
  Causal.integrate_facts a now (PDict (good ++ (k, bad) :: rest))
  = (match stored_record bad (now (length good)) with
     | None => a1
     | Some entry =>
         {| Causal.graph := Causal.graph a1;
            Causal.facts_db := <[k := entry]> (Causal.facts_db a1) |}
     end, Raise TypeError).
Proof.
  cbv zeta. simpl.
  pose proof (integrate_loop_result good a now 0%nat []) as Hres.
  rewrite Hgood in Hres. simpl in Hres. split; [exact Hres|].
  rewrite integrate_loop_app.
  destruct (Causal.integrate_loop a now 0 good []) as [a1 r] eqn:E.
  simpl in Hres. subst r. simpl.
  rewrite integrate_one_spec, Hbad.
  destruct (stored_record bad (now (length good))); [reflexivity|by destruct a1].
Qed.

Lemma X10_integrate_facts_stops_midway_witness :
  forallb acceptable [("x"%string, PStr "hello")].*2 = true /\
  acceptable (PInt 7) = false /\
  Causal.integrate_facts Causal.init clock
    (PDict ([("x"%string, PStr "hello")] ++ ("y"%string, PInt 7) :: [("z"%string, PStr "late")]))
  = ((Causal.integrate_facts Causal.init clock (PDict [("x"%string, PStr "hello")])).1,
     Raise TypeError).
Proof.
  split; [reflexivity|]. split; [reflexivity|].
  exact (proj2 (X10_integrate_facts_stops_midway Causal.init clock
                  [("x"%string, PStr "hello")] [("z"%string, PStr "late")] "y" (PInt 7)
                  eq_refl eq_refl)).
Defined.

(* ===================================================================== *)
(** * The depth of the causal chain *)
(* ===================================================================== *)

Section ChainDepth.

Implicit Types (G : Nx.DiGraph).

Lemma scan_level_leaves G level paths :
  (forall v, v ∈ level -> Nx.adj G v = []) ->
  Nx.scan_level G level paths = (paths, []).
Proof.
  unfold Nx.scan_level. generalize (paths, @nil string).
  induction level as [|v level IH]; simpl; intros acc H; [done|].
  rewrite (H v) by apply list_elem_of_here. simpl.
  apply IH. intros w Hw. apply H. by apply list_elem_of_further.
Qed.

Lemma scan_level_next G level paths w :
  w ∈ (Nx.scan_level G level paths).2 -> exists v d, (w, d) ∈ Nx.adj G v.
Proof.
  unfold Nx.scan_level.
  assert (forall acc : list (string * list string) * list string,
            (forall x, x ∈ acc.2 -> exists v d, (x, d) ∈ Nx.adj G v) ->
            forall x,
              x ∈ (fold_left
                     (fun acc v => fold_left (fun acc w => Nx.visit v w acc) (Nx.adj G v).*1 acc)
                     level acc).2 ->
              exists v d, (x, d) ∈ Nx.adj G v) as H.
  { induction level as [|v level IH]; simpl; intros acc Hacc; [exact Hacc|].
    apply IH. clear IH.
    assert (forall ws acc0,
              (forall x, x ∈ ws -> exists d, (x, d) ∈ Nx.adj G v) ->
              (forall x, x ∈ acc0.2 -> exists v d, (x, d) ∈ Nx.adj G v) ->
              forall x, x ∈ (fold_left (fun acc w => Nx.visit v w acc) ws acc0).2 ->
                        exists v d, (x, d) ∈ Nx.adj G v) as Hin.
    { induction ws as [|w0 ws IHw]; simpl; intros acc0 Hws Hacc0; [exact Hacc0|].
      apply IHw.
      - intros x Hx. apply Hws. by apply list_elem_of_further.
      - intros x. unfold Nx.visit. destruct (od_get w0 acc0.1); [apply Hacc0|].
        simpl. rewrite elem_of_app, list_elem_of_singleton. intros [Hx| ->].
        + by apply Hacc0.
        + destruct (Hws w0) as [d Hd]; [apply list_elem_of_here|]. eauto. }
    apply Hin; [|exact Hacc].
    intros x [[x' d] [-> Hx]]%list_elem_of_fmap. eauto. }
  apply H. simpl. by intros x ?%elem_of_nil.
Qed.

(** In a graph where the target of an edge has no successor, the search
    is over after one round. *)
Lemma levels_one_round G (n : nat) source paths :
  (forall u v d, (v, d) ∈ Nx.adj G u -> Nx.adj G v = []) ->
  Nx.levels G (S n) [source] paths = Nx.levels G 1 [source] paths.
Proof.
  intros Hleaf. simpl.
  pose proof (scan_level_next G [source] paths) as Hnext.
  destruct (Nx.scan_level G [source] paths) as [paths' next]. simpl in Hnext.
  destruct n as [|n]; [done|]. simpl.
  destruct next as [|w next]; [done|].
  rewrite scan_level_leaves.
  - by destruct n.
  - intros v Hv. destruct (Hnext v Hv) as (u & d & Hd). by eapply Hleaf.
Qed.

End ChainDepth.

(** X22: in every reachable state the answer of [get_causal_chain],
    a list or an exception, is the same for every depth from 1 on: no
    path of the graph has two edges, so the search ends after one
    round. *)
Theorem X22_chain_depth_is_at_most_one (a : Causal.CausalAgent) (H : reachable a)
    (start_node : string) (max_depth : Z) (Hd : 1 <= max_depth) :
  Causal.get_causal_chain a start_node max_depth = Causal.get_causal_chain a start_node 1.
Proof.
  unfold Causal.get_causal_chain, Nx.single_source_shortest_path.
  destruct (Z.to_nat max_depth) as [|n] eqn:E; [lia|].
  rewrite (levels_one_round (Causal.graph a) n); [reflexivity|].
  intros u v d Hin.
  pose proof (reachable_sourced a H) as Hs.
  destruct (reachable_labelled a H u v d Hin) as (lab & Hlab & _).
  destruct (Nx.adj (Causal.graph a) v) eqn:Ev; [done|].
  assert (is_hex_id v = true) as Hhex by (apply Hs; by rewrite Ev).
  unfold rule_targets in Hlab. rewrite !elem_of_cons, elem_of_nil in Hlab.
  destruct Hlab as [[= -> _]|[[= -> _]|[[= -> _]|[]]]]; discriminate Hhex.
Qed.

Lemma X22_chain_depth_is_at_most_one_witness :
  reachable agent_after_plan /\ 1 <= 3 /\
  Causal.get_causal_chain agent_after_plan "f087cb3b" 3
  = Causal.get_causal_chain agent_after_plan "f087cb3b" 1.
Proof.
  assert (reachable agent_after_plan) as Hr by apply reachable_run, reachable_init.
  assert (1 <= 3) as Hd by lia.
  split; [exact Hr|]. split; [exact Hd|].
  exact (X22_chain_depth_is_at_most_one agent_after_plan Hr "f087cb3b" 3 Hd).
Defined.

(* ===================================================================== *)
(** * The contexts of the orchestrator *)
(* ===================================================================== *)

Section Contexts.

Import Orch.

Implicit Types (o : CognitiveOrchestrator) (now : nat -> string) (command : pyval).

(** The context a call of [process] starts from: the one stored, or the
    fresh one of lines 61 to 65. *)
Lemma process_lookup o now command context_id :
  exists c',
    contexts (process o now command context_id).1 !! context_id = Some c' /\
    commands_processed c'
    = default 0 (commands_processed <$> contexts o !! context_id) + 1 /\
    created c' = default (now 0%nat) (created <$> contexts o !! context_id) /\
    last_command c' = Some command /\
    last_processed c' = Some (now 1%nat).
Proof.
  unfold process. cbv zeta.
  destruct (_decompose_4d command); simpl;
    rewrite ?lookup_alter_eq, ensure_context_lookup; simpl;
    (eexists; split; [reflexivity|]);
    destruct (contexts o !! context_id); simpl; auto.
Qed.

Lemma process_lookup_other o now command context_id other :
  other <> context_id ->
  contexts (process o now command context_id).1 !! other = contexts o !! other.
Proof.
  intros Hne. unfold process. cbv zeta.
  destruct (_decompose_4d command); simpl;
    rewrite ?lookup_alter_ne by done; by apply ensure_context_other.
Qed.

Lemma process_dom o now command context_id :
  dom (contexts (process o now command context_id).1) = {[context_id]} ∪ dom (contexts o).
Proof.
  unfold process. cbv zeta.
  assert (dom (ensure_context (contexts o) now context_id) = {[context_id]} ∪ dom (contexts o)) as H.
  { unfold ensure_context. destruct (contexts o !! context_id) eqn:E.
    - apply elem_of_dom_2 in E. set_solver.
    - apply dom_insert_L. }
  destruct (_decompose_4d command); simpl; by rewrite !dom_alter_L.
Qed.

Lemma process_all_count commands : forall o nows k context_id,
  default 0 (commands_processed <$> contexts (process_all o nows k commands context_id) !! context_id)
  = default 0 (commands_processed <$> contexts o !! context_id) + Z.of_nat (length commands).
Proof.
  induction commands as [|c commands IH]; simpl; intros o nows k context_id; [lia|].
  rewrite IH.
  destruct (process_lookup o (nows k) c context_id) as (c' & Hc & Hn & _).
  rewrite Hc. simpl. rewrite Hn. lia.
Qed.

Lemma process_all_active commands : forall o nows k context_id,
  commands <> [] ->
  is_Some (contexts (process_all o nows k commands context_id) !! context_id).
Proof.
  induction commands as [|c commands IH]; simpl; intros o nows k context_id Hne; [done|].
  destruct commands as [|c2 commands]; [apply process_activates|].
  by apply IH.
Qed.

Lemma process_all_other commands : forall o nows k context_id other,
  other <> context_id ->
  contexts (process_all o nows k commands context_id) !! other = contexts o !! other.
Proof.
  induction commands as [|c commands IH]; simpl; intros o nows k context_id other Hne; [done|].
  rewrite IH by done. by apply process_lookup_other.
Qed.

End Contexts.

(** X11: a call of [process], whatever the command and whether it
    returns or raises, touches the context of its id only: [get_context]
    gives every other id what it gave before, and gives this id a record
    with one more command processed (1 for a new context), the time of
    creation it had, and the command as last command. *)
Theorem X11_process_touches_one_context
    (o : Orch.CognitiveOrchestrator) (now : nat -> string) (command : pyval)
    (context_id : string) :
  let o' := (Orch.process o now command context_id).1 in
  (forall other, other <> context_id ->
     (Orch.get_context o' other).2 = (Orch.get_context o other).2) /\
  exists c',
    (Orch.get_context o' context_id).2 = Some c' /\
    Orch.commands_processed c'
    = default 0 (Orch.commands_processed <$> (Orch.get_context o context_id).2) + 1 /\
    Orch.created c'
    = default (now 0%nat) (Orch.created <$> (Orch.get_context o context_id).2) /\
    Orch.last_command c' = Some command /\
    Orch.last_processed c' = Some (now 1%nat).
Proof.
  cbv zeta. simpl. split.
  - intros other Hne. by apply process_lookup_other.
  - apply process_lookup.
Qed.

(** X12: the counter of a context counts the calls: after a run of
    calls of [process] for one id, with any commands, those that raise
    included, [commands_processed] is what it was (0 for a new context)
    plus the number of calls, and the other contexts are as before. *)
Theorem X12_commands_processed_counts_calls
    (o : Orch.CognitiveOrchestrator) (nows : nat -> nat -> string) (k : nat)
    (commands : list pyval) (context_id : string) (Hne : commands <> []) :
  let o' := process_all o nows k commands context_id in
  (exists c,
     Orch.contexts o' !! context_id = Some c /\
     Orch.commands_processed c
     = default 0 (Orch.commands_processed <$> Orch.contexts o !! context_id)
       + Z.of_nat (length commands)) /\
  forall other, other <> context_id ->
    Orch.contexts o' !! other = Orch.contexts o !! other.
Proof.
  cbv zeta. split.
  - pose proof (process_all_count commands o nows k context_id) as Hc.
    destruct (process_all_active commands o nows k context_id Hne) as [c Hs].
    exists c. split; [exact Hs|]. rewrite Hs in Hc. exact Hc.
  - intros other Ho. by apply process_all_other.
Qed.

Lemma X12_commands_processed_counts_calls_witness :
  [PStr "plan SF move"; PInt 5; PStr ""] <> [] /\
  exists c,
    Orch.contexts (process_all Orch.init (fun _ => clock) 0
                     [PStr "plan SF move"; PInt 5; PStr ""] "ctxA") !! "ctxA"%string = Some c /\
    Orch.commands_processed c = 3.
Proof.
  assert ([PStr "plan SF move"; PInt 5; PStr ""] <> []) as Hne by discriminate.
  split; [exact Hne|].
  destruct (X12_commands_processed_counts_calls Orch.init (fun _ => clock) 0
              [PStr "plan SF move"; PInt 5; PStr ""] "ctxA" Hne) as [(c & Hc & Hn) _].
  exists c. split; [exact Hc|]. exact Hn.
Defined.

(** X13: a context that was cleared starts afresh: the next call of
    [process] for its id gives a context with 1 command processed and the
    time of that call as time of creation, whatever the context held
    before. *)
Theorem X13_process_after_clear_starts_afresh
    (o : Orch.CognitiveOrchestrator) (now : nat -> string) (command : pyval)
    (context_id : string) :
  let cleared := (Orch.clear_context o context_id).1 in
  exists c,
    Orch.contexts (Orch.process cleared now command context_id).1 !! context_id = Some c /\
    Orch.commands_processed c = 1 /\
    Orch.created c = now 0%nat /\
    Orch.last_command c = Some command /\
    (forall other, other <> context_id ->
       Orch.contexts (Orch.process cleared now command context_id).1 !! other
       = Orch.contexts o !! other).
Proof.
  cbv zeta.
  assert (Orch.contexts (Orch.clear_context o context_id).1 !! context_id = None) as Hnone.
  { unfold Orch.clear_context. destruct (Orch.contexts o !! context_id) eqn:E; simpl;
      [apply lookup_delete_eq | done]. }
  destruct (process_lookup (Orch.clear_context o context_id).1 now command context_id)
    as (c & Hc & Hn & Hcr & Hl & _).
  rewrite Hnone in Hn, Hcr. simpl in Hn, Hcr.
  exists c. repeat split; try done.
  intros other Hne. rewrite process_lookup_other by done.
  unfold Orch.clear_context. destruct (Orch.contexts o !! context_id); simpl; [|done].
  by rewrite lookup_delete_ne.
Qed.

(** X14: the number of contexts that [list_contexts] reports grows by one
    with a call of [process] for a new id and stays with one for a known
    id; it goes down by one with [clear_context] of a known id and stays
    with one of an unknown id. *)
Theorem X14_total_contexts
    (o : Orch.CognitiveOrchestrator) (now now' : nat -> string) (command : pyval)
    (context_id : string) :
  let known := bool_decide (context_id ∈ dom (Orch.contexts o)) in
  let total := fun o1 => Orch.total_contexts (Orch.list_contexts o1 now').2 in
  total (Orch.process o now command context_id).1
  = total o + (if known then 0 else 1) /\
  total (Orch.clear_context o context_id).1
  = total o - (if known then 1 else 0).
Proof.
  cbv zeta. simpl. split.
  - rewrite <- !size_dom, process_dom. case_bool_decide as Hk.
    + replace ({[context_id]} ∪ dom (Orch.contexts o)) with (dom (Orch.contexts o)) by set_solver.
      lia.
    + rewrite size_union by set_solver. rewrite size_singleton. lia.
  - unfold Orch.clear_context. destruct (Orch.contexts o !! context_id) as [c|] eqn:E; simpl.
    + rewrite bool_decide_eq_true_2 by by apply elem_of_dom_2 in E.
      assert (size (Orch.contexts o) = S (size (delete context_id (Orch.contexts o)))) as ->.
      { rewrite <- (insert_delete_id (Orch.contexts o) context_id c E) at 1.
        apply map_size_insert_None, lookup_delete_eq. }
      lia.
    + rewrite bool_decide_eq_false_2 by by apply not_elem_of_dom. lia.
Qed.

(* ===================================================================== *)
(** * The decomposition *)
(* ===================================================================== *)

Section Decomposition.

Import Orch.

Lemma lower_char_idem c : PyStr.lower_char (PyStr.lower_char c) = PyStr.lower_char c.
Proof. destruct c as [[] [] [] [] [] [] [] []]; reflexivity. Qed.

Lemma lower_idem s : PyStr.lower (PyStr.lower s) = PyStr.lower s.
Proof. induction s as [|c s IH]; simpl; [done|]. by rewrite lower_char_idem, IH. Qed.

(** A class other than generic has its list in the rule table. *)
Lemma classified_has_rules text :
  _classify_command text <> "generic"%string ->
  exists base, decomposition_rules !! _classify_command text = Some base /\ length base = 5%nat.
Proof.
  unfold _classify_command.
  repeat match goal with |- context [if ?b then _ else _] => destruct b end;
    intros H; try done; (eexists; split; [vm_compute; reflexivity | reflexivity]).
Qed.

Lemma temporal_shape command l :
  exists extra, _add_temporal_dimension command l = l ++ extra /\ (length extra <= 6)%nat.
Proof.
  unfold _add_temporal_dimension. cbv zeta.
  repeat match goal with |- context [if ?b then _ else _] => destruct b end;
    rewrite <- ?app_assoc; (eexists; split; [try reflexivity; by rewrite app_nil_r | simpl; lia]).
Qed.

Lemma causal_shape command l :
  exists extra, _add_causal_dimension command l = l ++ extra /\ (length extra <= 8)%nat.
Proof.
  unfold _add_causal_dimension. cbv zeta.
  repeat match goal with |- context [if ?b then _ else _] => destruct b end;
    rewrite <- ?app_assoc; (eexists; split; [try reflexivity; by rewrite app_nil_r | simpl; lia]).
Qed.

Lemma spatial_shape command l :
  exists extra, _add_spatial_dimension command l = l ++ extra /\ (length extra <= 8)%nat.
Proof.
  unfold _add_spatial_dimension. cbv zeta.
  repeat match goal with |- context [if ?b then _ else _] => destruct b end;
    rewrite <- ?app_assoc; (eexists; split; [try reflexivity; by rewrite app_nil_r | simpl; lia]).
Qed.



End Decomposition.

(** X15: a command that the classifier recognises is decomposed without
    regard to the case of its ASCII letters: two commands that differ
    only in the case of the letters A to Z (they are equal once these
    are moved to a to z, which is what [PyStr.lower] does; letters
    outside ASCII are the same in both), one of a class other than
    generic, get the same list from [process], the list of the command
    with its ASCII letters in lower case.  (A generic command is quoted
    in its list as it was typed.) *)
Theorem X15_decomposition_ignores_case
    (o1 o2 : Orch.CognitiveOrchestrator) (now1 now2 : nat -> string)
    (command1 command2 id1 id2 : string)
    (Hlower : PyStr.lower command1 = PyStr.lower command2)
    (Hclass : Orch._classify_command (PyStr.lower command1) <> "generic"%string) :
  (Orch.process o1 now1 (PStr command1) id1).2 = (Orch.process o2 now2 (PStr command2) id2).2 /\
  (Orch.process o1 now1 (PStr command1) id1).2
  = (Orch.process o1 now1 (PStr (PyStr.lower command1)) id1).2.
Proof.
  destruct (classified_has_rules _ Hclass) as (base & Hbase & _).
  assert (forall c, PyStr.lower c = PyStr.lower command1 ->
            Orch.decompose_str c = Orch.decompose_str command1) as H.
  { intros c Hc. unfold Orch.decompose_str. cbv zeta. by rewrite Hc, Hbase. }
  simpl. split; f_equal.
  - symmetry. apply H. by symmetry.
  - symmetry. apply H, lower_idem.
Qed.

Lemma X15_decomposition_ignores_case_witness :
  PyStr.lower "Plan SF Move" = PyStr.lower "plan sf MOVE" /\
  Orch._classify_command (PyStr.lower "Plan SF Move") <> "generic"%string /\
  (Orch.process Orch.init clock (PStr "Plan SF Move") "a").2
  = (Orch.process orch_after_hello clock (PStr "plan sf MOVE") "b").2.
Proof.
  assert (PyStr.lower "Plan SF Move" = PyStr.lower "plan sf MOVE") as H1 by reflexivity.
  assert (Orch._classify_command (PyStr.lower "Plan SF Move") <> "generic"%string) as H2
    by (vm_compute; discriminate).
  split; [exact H1|]. split; [exact H2|].
  exact (proj1 (X15_decomposition_ignores_case Orch.init orch_after_hello clock clock
                  "Plan SF Move" "plan sf MOVE" "a" "b" H1 H2)).
Defined.

(** X16: the list of a command of a class other than generic begins with
    the five items of its class in the rule table, followed by at most 22
    added items; no list has more than 27 items. *)
Theorem X16_decomposition_shape (command : string) :
  (length (Orch.decompose_str command) <= 27)%nat /\
  match Orch.decomposition_rules !! Orch._classify_command (PyStr.lower command) with
  | Some base =>
      length base = 5%nat /\
      exists extra, Orch.decompose_str command = base ++ extra /\ (length extra <= 22)%nat
  | None =>
      Orch._classify_command (PyStr.lower command) = "generic"%string /\
      Orch.decompose_str command = Orch._generic_decomposition command
  end.
Proof.
  unfold Orch.decompose_str. cbv zeta.
  destruct (Orch.decomposition_rules !! _) as [base|] eqn:E.
  - pose proof (rules_length _ _ E) as Hb.
    destruct (temporal_shape (PyStr.lower command) base) as (e1 & -> & H1).
    destruct (causal_shape (PyStr.lower command) (base ++ e1)) as (e2 & -> & H2).
    destruct (spatial_shape (PyStr.lower command) ((base ++ e1) ++ e2)) as (e3 & -> & H3).
    rewrite <- !app_assoc. rewrite !length_app.
    split; [lia|]. split; [exact Hb|].
    exists (e1 ++ e2 ++ e3). split; [reflexivity|]. rewrite !length_app. lia.
  - split; [simpl; lia|]. split; [|reflexivity].
    destruct (decide (Orch._classify_command (PyStr.lower command) = "generic"%string))
      as [Hg|Hg]; [exact Hg|].
    destruct (classified_has_rules _ Hg) as (base & Hb & _). congruence.
Qed.



(* ===================================================================== *)
(** * The request handlers *)
(* ===================================================================== *)

(** X18: a request whose body is a mapping without a command, or with
    one that is false as a condition (the empty string, null, 0, an
    empty list), gets the answer 400 from [grok_4d] and changes neither
    the orchestrator nor the agent, whatever its context id; so the
    empty command, which [process] would take as generic, never reaches
    it. *)
Theorem X18_grok_rejects_empty_command
    (s : App.Nexus) (now : nat -> string) (items : list (string * pyval))
    (Hempty : default false (App.truthy <$> dict_of_items items !! "command"%string) = false) :
  App.grok_4d s now (PDict items) = Some (s, App.Grok400) /\
  is_ok (Orch.process (App.orch s) now (PStr "") "axiomhive_v20").2 = true.
Proof.
  split; [|reflexivity]. unfold App.grok_4d. cbv zeta.
  destruct (dict_of_items items !! "command"%string) as [cmd|]; simpl in Hempty; [|reflexivity].
  by rewrite Hempty.
Qed.

Lemma X18_grok_rejects_empty_command_witness :
  default false (App.truthy <$> dict_of_items [("command"%string, PStr "")] !! "command"%string)
  = false /\
  App.grok_4d App.init clock (PDict [("command"%string, PStr "")])
  = Some (App.init, App.Grok400).
Proof.
  assert (default false (App.truthy <$> dict_of_items [("command"%string, PStr "")]
                                          !! "command"%string) = false) as H
    by (vm_compute; reflexivity).
  split; [exact H|].
  exact (proj1 (X18_grok_rejects_empty_command App.init clock
                  [("command"%string, PStr "")] H)).
Defined.

(** X19: a request whose body is a mapping with a command that is a
    string and not empty, and with a context id that is a string or
    missing (axiomhive_v20 then), is counted in its context and then
    built into the graph.  When the command encodes as UTF-8 the answer
    is 200 with the decomposition of the command and the coherence of
    the graph once the command is added, and the graph has the node of
    the command; when the command has a lone surrogate the answer is 500
    with the UnicodeEncodeError of [build_4d_graph], the agent is as
    before, and the context has counted the command all the same. *)
Theorem X19_grok_answers_string_command
    (s : App.Nexus) (now : nat -> string) (items : list (string * pyval))
    (text id : string)
    (Hcmd : dict_of_items items !! "command"%string = Some (PStr text))
    (Hcid : default (PStr "axiomhive_v20") (dict_of_items items !! "context_id"%string)
            = PStr id)
    (Htext : text <> ""%string) :
  exists s' answer,
    App.grok_4d s now (PDict items) = Some (s', answer) /\
    App.orch s' = (Orch.process (App.orch s) now (PStr text) id).1 /\
    App.causal s' = (Causal.build_4d_graph (App.causal s) (fun k => now (2 + k)%nat) text).1 /\
    (if PyStr.has_surrogate text
     then answer = App.Grok500 UnicodeEncodeError /\ App.causal s' = App.causal s
     else answer = App.Grok200 (Orch.decompose_str text)
                     (Causal._calculate_coherence (Causal.graph (App.causal s'))) /\
          Causal.command_hash text ∈ dom (Nx.node (Causal.graph (App.causal s')))) /\
    exists c,
      Orch.contexts (App.orch s') !! id = Some c /\
      Orch.commands_processed c
      = default 0 (Orch.commands_processed <$> Orch.contexts (App.orch s) !! id) + 1.
Proof.
  unfold App.grok_4d. cbv zeta. rewrite Hcmd, Hcid.
  assert (App.truthy (PStr text) = true) as ->.
  { simpl. destruct (String.eqb_spec text ""); [done | reflexivity]. }
  simpl negb. cbv iota.
  destruct (process_lookup (App.orch s) now (PStr text) id) as (c & Hc & Hn & _).
  destruct (PyStr.has_surrogate text) eqn:E.
  - rewrite (build_raises _ _ text E). simpl.
    eexists _, _. split; [reflexivity|]. simpl. repeat split. eauto.
  - rewrite (build_encodes _ _ text E). cbv zeta. simpl.
    eexists _, _. split; [reflexivity|]. simpl. repeat split; [|eauto].
    destruct (grows_build_relationships
                (Nx.add_node (Causal.graph (App.causal s)) (Causal.command_hash text)
                   (Causal.fact_record text (now 2%nat) "command" Causal.default_attribution))
                (Causal.command_hash text) text) as [Hsub _].
    apply Hsub. rewrite add_node_dom. set_solver.
Qed.

Lemma X19_grok_answers_string_command_witness :
  dict_of_items [("command"%string, PStr "plan SF move")] !! "command"%string
  = Some (PStr "plan SF move") /\
  default (PStr "axiomhive_v20")
    (dict_of_items [("command"%string, PStr "plan SF move")] !! "context_id"%string)
  = PStr "axiomhive_v20" /\
  "plan SF move"%string <> ""%string /\
  exists s' answer,
    App.grok_4d App.init clock (PDict [("command"%string, PStr "plan SF move")])
    = Some (s', answer) /\
    answer = App.Grok200 (Orch.decompose_str "plan SF move")
               (Causal._calculate_coherence (Causal.graph (App.causal s'))).
Proof.
  assert (dict_of_items [("command"%string, PStr "plan SF move")] !! "command"%string
          = Some (PStr "plan SF move")) as H1 by (vm_compute; reflexivity).
  assert (default (PStr "axiomhive_v20")
            (dict_of_items [("command"%string, PStr "plan SF move")] !! "context_id"%string)
          = PStr "axiomhive_v20") as H2 by (vm_compute; reflexivity).
  assert ("plan SF move"%string <> ""%string) as H3 by discriminate.
  split; [exact H1|]. split; [exact H2|]. split; [exact H3|].
  destruct (X19_grok_answers_string_command App.init clock
              [("command"%string, PStr "plan SF move")] "plan SF move" "axiomhive_v20"
              H1 H2 H3) as (s' & answer & Hrun & _ & _ & Hans & _).
  exists s', answer. split; [exact Hrun|].
  change (PyStr.has_surrogate "plan SF move") with false in Hans. exact (proj1 Hans).
Defined.

(** The command of one character U+D800 through [grok_4d]: answer 500,
    one command counted, the graph as it was. *)
Example grok_lone_surrogate :
  exists s',
    App.grok_4d App.init clock (PDict [("command"%string, PStr lone_surrogate)])
    = Some (s', App.Grok500 UnicodeEncodeError) /\
    App.causal s' = Causal.init /\
    Orch.commands_processed <$> Orch.contexts (App.orch s') !! "axiomhive_v20"%string = Some 1.
Proof. eexists. split; [vm_compute; reflexivity|]. split; vm_compute; reflexivity. Qed.

(** X20: a request whose body is a mapping with a command that is true
    as a condition and not a string (a number, a list, a mapping), and
    with a context id that is a string or missing, gets the answer 500
    from [grok_4d]; the agent and its graph are as before, while the
    orchestrator keeps the context of the request, created if it was
    missing, with one more command processed. *)
Theorem X20_grok_fails_after_counting
    (s : App.Nexus) (now : nat -> string) (items : list (string * pyval))
    (cmd : pyval) (id : string)
    (Hcmd : dict_of_items items !! "command"%string = Some cmd)
    (Hcid : default (PStr "axiomhive_v20") (dict_of_items items !! "context_id"%string)
            = PStr id)
    (Htrue : App.truthy cmd = true) (Hstr : forall text, cmd <> PStr text) :
  exists s',
    App.grok_4d s now (PDict items) = Some (s', App.Grok500 AttributeError) /\
    App.causal s' = App.causal s /\
    exists c,
      Orch.contexts (App.orch s') !! id = Some c /\
      Orch.commands_processed c
      = default 0 (Orch.commands_processed <$> Orch.contexts (App.orch s) !! id) + 1 /\
      Orch.last_command c = Some cmd.
Proof.
  unfold App.grok_4d. cbv zeta. rewrite Hcmd, Hcid, Htrue. simpl negb. cbv iota.
  destruct (process_lookup (App.orch s) now cmd id) as (c & Hc & Hn & _ & Hl & _).
  assert ((Orch.process (App.orch s) now cmd id).2 = Raise AttributeError) as Hr.
  { destruct cmd; try reflexivity. by destruct (Hstr s0). }
  destruct (Orch.process (App.orch s) now cmd id) as [o' r] eqn:E.
  simpl in Hr, Hc. subst r. eexists. split; [reflexivity|]. simpl. split; [reflexivity|]. eauto.
Qed.

Lemma X20_grok_fails_after_counting_witness :
  dict_of_items [("command"%string, PInt 5)] !! "command"%string = Some (PInt 5) /\
  default (PStr "axiomhive_v20")
    (dict_of_items [("command"%string, PInt 5)] !! "context_id"%string)
  = PStr "axiomhive_v20" /\
  App.truthy (PInt 5) = true /\
  (forall text, PInt 5 <> PStr text) /\
  exists s',
    App.grok_4d App.init clock (PDict [("command"%string, PInt 5)])
    = Some (s', App.Grok500 AttributeError).
Proof.
  assert (dict_of_items [("command"%string, PInt 5)] !! "command"%string = Some (PInt 5))
    as H1 by (vm_compute; reflexivity).
  assert (default (PStr "axiomhive_v20")
            (dict_of_items [("command"%string, PInt 5)] !! "context_id"%string)
          = PStr "axiomhive_v20") as H2 by (vm_compute; reflexivity).
  assert (forall text, PInt 5 <> PStr text) as H4 by (intros; discriminate).
  split; [exact H1|]. split; [exact H2|]. split; [reflexivity|]. split; [exact H4|].
  destruct (X20_grok_fails_after_counting App.init clock [("command"%string, PInt 5)]
              (PInt 5) "axiomhive_v20" H1 H2 eq_refl H4) as (s' & Hrun & _).
  exists s'. exact Hrun.
Defined.

(** X23: a request that fails before [process] writes anything leaves
    both objects as they were and gets the answer 500: a body that is no
    mapping (a list, a string, a number, null), on which [data.get]
    raises AttributeError, and a mapping with a command that is true as a
    condition and a context id that is a list or a mapping, which
    [process] cannot hash (TypeError at line 60). *)
Theorem X23_grok_fails_before_writing (s : App.Nexus) (now : nat -> string) (data : pyval) :
  match data with
  | PDict items =>
      forall cmd,
        dict_of_items items !! "command"%string = Some cmd ->
        App.truthy cmd = true ->
        match dict_of_items items !! "context_id"%string with
        | Some (PList _) | Some (PDict _) =>
            App.grok_4d s now data = Some (s, App.Grok500 TypeError)
        | _ => True
        end
  | _ => App.grok_4d s now data = Some (s, App.Grok500 AttributeError)
  end.
Proof.
  destruct data; try reflexivity.
  intros cmd Hcmd Htrue. unfold App.grok_4d. cbv zeta. rewrite Hcmd, Htrue.
  by destruct (dict_of_items items !! "context_id"%string) as [[]|].
Qed.

Lemma X23_grok_fails_before_writing_witness :
  App.grok_4d App.init clock (PList [PStr "plan"])
  = Some (App.init, App.Grok500 AttributeError) /\
  App.grok_4d App.init clock
    (PDict [("command"%string, PStr "plan"); ("context_id"%string, PList [PInt 1])])
  = Some (App.init, App.Grok500 TypeError).
Proof.
  split.
  - exact (X23_grok_fails_before_writing App.init clock (PList [PStr "plan"])).
  - exact (X23_grok_fails_before_writing App.init clock
             (PDict [("command"%string, PStr "plan"); ("context_id"%string, PList [PInt 1])])
             (PStr "plan") eq_refl eq_refl).
Defined.

(** X21: a POST of a mapping to [facts] answers with the number of its
    items when every value is acceptable and lets the TypeError out
    otherwise; a body that is no mapping lets the AttributeError out with
    the agent as before.  The orchestrator is never touched. *)
Theorem X21_facts_post (s : App.Nexus) (now : nat -> string) (facts_data : pyval) :
  App.orch (App.facts_post s now facts_data).1 = App.orch s /\
  App.causal (App.facts_post s now facts_data).1
  = (Causal.integrate_facts (App.causal s) now facts_data).1 /\
  match facts_data with
  | PDict items =>
      (App.facts_post s now facts_data).2
      = if forallb acceptable items.*2 then Ok (Z.of_nat (length items)) else Raise TypeError
  | _ => App.facts_post s now facts_data = (s, Raise AttributeError)
  end.
Proof.
  unfold App.facts_post.
  destruct facts_data; try (by destruct s).
  pose proof (integrate_loop_result items (App.causal s) now 0%nat []) as Hres.
  simpl in *. destruct (Causal.integrate_loop (App.causal s) now 0 items []) as [a' r].
  simpl in Hres. subst r.
  destruct (forallb acceptable items.*2); simpl; [|done].
  by rewrite length_fmap.
Qed.
